(** * PicoScope MCP: device manager and unit conversion

    A shallow embedding of [picoscope_mcp/models.py], [picoscope_mcp/utils.py]
    and [picoscope_mcp/device_manager.py].

    Conventions of the embedding:
    - Python [float] values are modelled as exact rationals ([Q]); the
      theorems therefore speak about the arithmetic the code writes down, not
      about binary rounding.
    - Python [int] is [Z].
    - A Python [dict] is an insertion-ordered association list ([dict]),
      because [capture_block] iterates over [channel_configs] and the order
      of the driver calls follows the order of insertion.
    - The PicoSDK ([picosdk.ps5000a], [picosdk.functions]) is an external
      collaborator.  It is a parameter of the model ([picosdk]): every
      foreign call is answered by an oracle that sees the history of calls.
    - A method is a computation in the monad [M]: it transforms the world
      (the manager object and the history of driver calls) and either returns,
      raises, or runs out of the fuel given to its [while] loops. *)

From Stdlib Require Import ZArith QArith Qabs List String Bool Lia Lqa.
Import ListNotations.

Local Open Scope Z_scope.

(* ------------------------------------------------------------------ *)
(** ** Python values                                                    *)
(* ------------------------------------------------------------------ *)

(** The exceptions the modelled code can meet. *)
Inductive exn : Type :=
| ZeroDivisionError
| ValueError
| KeyError
| UnicodeDecodeError
| NameError            (* a PicoSDK name used although the import failed *)
| PicoSDKCtypesError   (* raised by assert_pico_ok on a status other than PICO_OK *)
| ForeignError.        (* anything raised inside a PicoSDK call *)

(** The result of evaluating a pure Python expression. *)
Inductive pyresult (A : Type) : Type :=
| Ok (a : A)
| Raise (e : exn).
Arguments Ok {A} a.
Arguments Raise {A} e.

Definition pybind {A B} (r : pyresult A) (k : A -> pyresult B) : pyresult B :=
  match r with
  | Ok a => k a
  | Raise e => Raise e
  end.


(** [int(q)]: truncation toward zero. *)
Definition py_int (q : Q) : Z := Z.quot (Qnum q) (Z.pos (Qden q)).

(** [min(l, key=key)] on a non-empty sequence [x :: l]: the first element
    whose key is minimal. *)
Fixpoint py_min_by {A} (key : A -> Q) (best : A) (l : list A) : A :=
  match l with
  | [] => best
  | x :: r =>
      if Qlt_le_dec (key x) (key best) then py_min_by key x r
      else py_min_by key best r
  end.

Definition py_min {A} (key : A -> Q) (l : list A) : pyresult A :=
  match l with
  | [] => Raise ValueError
  | x :: r => Ok (py_min_by key x r)
  end.

(* ------------------------------------------------------------------ *)
(** ** Insertion-ordered dictionaries                                   *)
(* ------------------------------------------------------------------ *)

Section Dict.
Context {V : Type}.

Definition dict : Type := list (string * V).

Fixpoint dict_get (d : dict) (k : string) : option V :=
  match d with
  | [] => None
  | (k', v) :: r => if String.eqb k' k then Some v else dict_get r k
  end.

(** [k in d] *)
Definition dict_mem (d : dict) (k : string) : bool :=
  match dict_get d k with Some _ => true | None => false end.

(** [d[k] = v]: an existing key keeps its position. *)
Fixpoint dict_set (d : dict) (k : string) (v : V) : dict :=
  match d with
  | [] => [(k, v)]
  | (k', v') :: r =>
      if String.eqb k' k then (k, v) :: r else (k', v') :: dict_set r k v
  end.

(** [d.items()] *)
Definition dict_items (d : dict) : list (string * V) := d.

(** [d.clear()] *)
Definition dict_clear (d : dict) : dict := [].
End Dict.
Arguments dict V : clear implicits.

(* ------------------------------------------------------------------ *)
(** ** models.py                                                        *)
(* ------------------------------------------------------------------ *)

Inductive ChannelCoupling : Type := AC | DC.

Inductive TriggerDirection : Type := RISING | FALLING | RISING_OR_FALLING.

Record DeviceInfo : Type := {
  handle : Z;
  model : string;
  serial : string;
  variant : string;
  batch_and_serial : string;
  max_adc_value : Z;
  min_adc_value : Z;
  num_channels : Z
}.

Record ChannelConfig : Type := {
  channel : string;
  enabled : bool;
  coupling : ChannelCoupling;
  voltage_range : Q;
  analog_offset : Q
}.

Record TriggerConfig : Type := {
  source : string;
  threshold_mv : Q;
  direction : TriggerDirection;
  auto_trigger_ms : Z
}.

(** [CaptureData.channel] is [cd_channel] here: [channel] is taken by
    [ChannelConfig]. *)
Record CaptureData : Type := {
  cd_channel : string;
  time_values : list Q;
  voltage_values : list Q;
  sample_interval_ns : Z;
  num_samples : Z
}.

(* ------------------------------------------------------------------ *)
(** ** utils.py                                                         *)
(* ------------------------------------------------------------------ *)



(** [get_available_voltage_ranges] *)
Definition get_available_voltage_ranges : list Q :=
  [0.02; 0.05; 0.1; 0.2; 0.5; 1.0; 2.0; 5.0; 10.0; 20.0; 50.0]%Q.

(* ------------------------------------------------------------------ *)
(** ** The range ladder of device_manager.py                            *)
(* ------------------------------------------------------------------ *)

(** The names of [ps.PS5000A_RANGE] that the manager looks up.  Their
    numeric values belong to the PicoSDK and stay symbolic. *)
Inductive ps5000a_range : Type :=
| PS5000A_20MV | PS5000A_50MV | PS5000A_100MV | PS5000A_200MV
| PS5000A_500MV | PS5000A_1V | PS5000A_2V | PS5000A_5V
| PS5000A_10V | PS5000A_20V.

(** The literal [range_map] that [configure_channel], [set_trigger] and
    [capture_block] each write out. *)
Definition range_map : list (Q * ps5000a_range) :=
  [ (0.02, PS5000A_20MV); (0.05, PS5000A_50MV); (0.1, PS5000A_100MV);
    (0.2, PS5000A_200MV); (0.5, PS5000A_500MV); (1.0, PS5000A_1V);
    (2.0, PS5000A_2V); (5.0, PS5000A_5V); (10.0, PS5000A_10V);
    (20.0, PS5000A_20V) ]%Q.

(** [range_map.keys()] *)
Definition range_map_keys : list Q := map fst range_map.

(** [range_map[k]], keys compared as numbers. *)
Fixpoint range_map_get (m : list (Q * ps5000a_range)) (k : Q)
  : pyresult ps5000a_range :=
  match m with
  | [] => Raise KeyError
  | (k', v) :: r => if Qeq_bool k' k then Ok v else range_map_get r k
  end.

(** [min(range_map.keys(), key=lambda x: abs(x - requested))] *)
Definition closest_range (requested : Q) : pyresult Q :=
  py_min (fun x => Qabs (x - requested)) range_map_keys.

(** [ps.PS5000A_RANGE[range_map[closest_range]]] *)
Definition nearest_ps_range (requested : Q) : pyresult ps5000a_range :=
  pybind (closest_range requested) (fun closest =>
  range_map_get range_map closest).

(* ------------------------------------------------------------------ *)
(** ** The PicoSDK boundary                                             *)
(* ------------------------------------------------------------------ *)

(** Constants of [picosdk.ps5000a] that the manager names. *)
Inductive ps5000a_channel : Type :=
| PS5000A_CHANNEL_A | PS5000A_CHANNEL_B | PS5000A_CHANNEL_C
| PS5000A_CHANNEL_D | PS5000A_EXTERNAL.

Inductive ps5000a_coupling : Type := PS5000A_AC | PS5000A_DC.

Inductive ps5000a_threshold_direction : Type :=
| PS5000A_RISING | PS5000A_FALLING | PS5000A_RISING_OR_FALLING.

Inductive ps5000a_device_resolution : Type := PS5000A_DR_12BIT.

Inductive ps5000a_ratio_mode : Type := PS5000A_RATIO_MODE_NONE.

Inductive pico_info : Type := PICO_VARIANT_INFO | PICO_BATCH_AND_SERIAL.

(** One foreign call with the arguments the manager passes.  [chandle] is
    the manager's [self.chandle] at the time of the call; out-parameters
    passed by reference are answered in the [reply]. *)
Inductive call : Type :=
| find_all_units
| ps5000aOpenUnit (serial_bytes : option string)
                  (resolution : ps5000a_device_resolution)
| ps5000aChangePowerSource (chandle : option Z) (power_status : Z)
| ps5000aGetUnitInfo (chandle : option Z) (string_length : Z) (info : pico_info)
| ps5000aStop (chandle : option Z)
| ps5000aCloseUnit (chandle : option Z)
| ps5000aSetChannel (chandle : option Z) (ch : ps5000a_channel) (enable : Z)
                    (type : ps5000a_coupling) (range : ps5000a_range)
                    (analog_offset : Z)
| ps5000aSetSimpleTrigger (chandle : option Z) (enable : Z)
                          (src : ps5000a_channel) (threshold : Z)
                          (dir : ps5000a_threshold_direction)
                          (delay : Z) (auto_trigger_ms : Z)
| ps5000aSetDataBuffer (chandle : option Z) (ch : ps5000a_channel)
                       (buffer : string) (buffer_length : Z) (segment_index : Z)
                       (mode : ps5000a_ratio_mode)
| ps5000aGetTimebase2 (chandle : option Z) (timebase : Z) (no_samples : Z)
                      (segment_index : Z)
| ps5000aRunBlock (chandle : option Z) (pre_trigger post_trigger : Z)
                  (timebase : Z) (segment_index : Z)
| ps5000aIsReady (chandle : option Z)
| ps5000aGetValues (chandle : option Z) (start_index : Z) (no_samples : Z)
                   (ratio : Z) (mode : ps5000a_ratio_mode) (segment_index : Z).

(** What a foreign call leaves behind: whether it raised, the PICO_STATUS
    it returned, and the content of each out-parameter after the call. *)
Record reply : Type := {
  r_raises : bool;
  r_status : Z;
  r_handle : Z;                  (* ps5000aOpenUnit: chandle.value *)
  r_info : option string;        (* ps5000aGetUnitInfo:
                                    info_string.value.decode('utf-8'),
                                    None when the bytes do not decode *)
  r_interval : Q;                (* ps5000aGetTimebase2: time_interval_ns.value *)
  r_ready : Z;                   (* ps5000aIsReady: ready.value *)
  r_buffer : string -> nat -> Z; (* ps5000aGetValues: the content of the
                                    registered buffers, see setup_buffers *)
  r_devices : list (string * string)
                                 (* find_all_units: str(scope.info) and
                                    getattr(scope, "variant", "unknown") *)
}.

(** The installed SDK: whether the import at the top of the module
    succeeded, how the driver answers a call given the calls made so far,
    and the two conversion helpers of [picosdk.functions]. *)
Record picosdk : Type := {
  PICOSDK_AVAILABLE : bool;
  respond : list call -> call -> reply;
  mV2adc : Q -> ps5000a_range -> Z -> pyresult Z;
  adc2mV : list Z -> ps5000a_range -> Z -> pyresult (list Q)
}.

(* ------------------------------------------------------------------ *)
(** ** The manager object and the monad of its methods                  *)
(* ------------------------------------------------------------------ *)

(** What [current_device] could hold ([Optional[Any]]). *)
Inductive pyobject : Type := PyObject (id : Z).

Record PicoScopeManager : Type := {
  current_device : option pyobject;
  device_info : option DeviceInfo;
  channel_configs : dict ChannelConfig;
  chandle : option Z;
  status : dict Z
}.

(** [PicoScopeManager.__init__] *)
Definition __init__ : PicoScopeManager := {|
  current_device := None;
  device_info := None;
  channel_configs := [];
  chandle := None;
  status := []
|}.

Record world : Type := {
  self : PicoScopeManager;
  trace : list call            (* the foreign calls made so far, oldest first *)
}.

Definition init_world : world := {| self := __init__; trace := [] |}.

Inductive outcome (A : Type) : Type :=
| Return (a : A)
| Raised (e : exn)
| OutOfFuel.
Arguments Return {A} a.
Arguments Raised {A} e.
Arguments OutOfFuel {A}.

Definition M (A : Type) : Type := world -> outcome A * world.

Definition ret {A} (a : A) : M A := fun w => (Return a, w).

Definition bind {A B} (m : M A) (k : A -> M B) : M B := fun w =>
  match m w with
  | (Return a, w') => k a w'
  | (Raised e, w') => (Raised e, w')
  | (OutOfFuel, w') => (OutOfFuel, w')
  end.

Declare Scope py_scope.
Delimit Scope py_scope with py.
Notation "x <- c ;; k" := (bind c (fun x => k))
  (at level 61, c at next level, right associativity) : py_scope.
Notation "c ;; k" := (bind c (fun _ => k))
  (at level 61, right associativity) : py_scope.
Notation "' pat <- c ;; k" := (bind c (fun x => match x with pat => k end))
  (at level 61, pat pattern, c at next level, right associativity) : py_scope.
Local Open Scope py_scope.

Definition raise {A} (e : exn) : M A := fun w => (Raised e, w).

(** A pure expression that may raise. *)
Definition lift {A} (r : pyresult A) : M A :=
  match r with
  | Ok a => ret a
  | Raise e => raise e
  end.

(** [try: body  except Exception: handler] (also the bare [except:]).
    What [body] did to the object before raising stays done. *)
Definition try_except {A} (body : M A) (handler : exn -> M A) : M A := fun w =>
  match body w with
  | (Raised e, w') => handler e w'
  | r => r
  end.

(** [while cond: body], on the loop's local variables [x]; the condition
    may read the object. *)
Fixpoint while {X} (fuel : nat) (cond : X -> M bool) (body : X -> M X) (x : X)
  : M X :=
  c <- cond x ;;
  if c then
    match fuel with
    | O => fun w => (OutOfFuel, w)
    | S fuel' => x' <- body x ;; while fuel' cond body x'
    end
  else ret x.

(** [for x in l: body], on the local variables [acc] the body updates. *)
Fixpoint for_each {X S} (l : list X) (body : X -> S -> M S) (acc : S) : M S :=
  match l with
  | [] => ret acc
  | x :: r => acc' <- body x acc ;; for_each r body acc'
  end.

Definition get_self : M PicoScopeManager := fun w => (Return (self w), w).

Definition update_self (f : PicoScopeManager -> PicoScopeManager) : M unit :=
  fun w => (Return tt, {| self := f (self w); trace := trace w |}).

Definition set_current_device (v : option pyobject) : M unit :=
  update_self (fun s => {| current_device := v;
                           device_info := device_info s;
                           channel_configs := channel_configs s;
                           chandle := chandle s;
                           status := status s |}).

Definition set_device_info (v : option DeviceInfo) : M unit :=
  update_self (fun s => {| current_device := current_device s;
                           device_info := v;
                           channel_configs := channel_configs s;
                           chandle := chandle s;
                           status := status s |}).

Definition set_channel_configs (v : dict ChannelConfig) : M unit :=
  update_self (fun s => {| current_device := current_device s;
                           device_info := device_info s;
                           channel_configs := v;
                           chandle := chandle s;
                           status := status s |}).

Definition set_chandle (v : option Z) : M unit :=
  update_self (fun s => {| current_device := current_device s;
                           device_info := device_info s;
                           channel_configs := channel_configs s;
                           chandle := v;
                           status := status s |}).

Definition set_status (v : dict Z) : M unit :=
  update_self (fun s => {| current_device := current_device s;
                           device_info := device_info s;
                           channel_configs := channel_configs s;
                           chandle := chandle s;
                           status := v |}).

(** [self.status[key] = st] *)
Definition status_store (key : string) (st : Z) : M unit :=
  s <- get_self ;; set_status (dict_set (status s) key st).

(** [assert_pico_ok(status)] of [picosdk.functions]: PICO_OK is 0. *)
Definition assert_pico_ok (st : Z) : M unit :=
  if st =? 0 then ret tt else raise PicoSDKCtypesError.

(** Truth value of [self.chandle]: [None] is false, and so is a
    [ctypes.c_int16] holding 0. *)
Definition chandle_truthy (s : PicoScopeManager) : bool :=
  match chandle s with
  | Some h => negb (h =? 0)
  | None => false
  end.

(* ------------------------------------------------------------------ *)
(** ** device_manager.py                                                *)
(* ------------------------------------------------------------------ *)

Section Manager.
Variable sdk : picosdk.

(** Evaluating a name imported from the PicoSDK ([ps], [mV2adc], ...):
    unbound when the import at the top of the module failed. *)
Definition picosdk_name : M unit :=
  if PICOSDK_AVAILABLE sdk then ret tt else raise NameError.

(** One foreign call: the driver answers from the history, the call is
    recorded, and an exception inside the call propagates. *)
Definition foreign (c : call) : M reply :=
  picosdk_name ;;
  fun w =>
    let r := respond sdk (trace w) c in
    let w' := {| self := self w; trace := trace w ++ [c] |} in
    if r_raises r then (Raised ForeignError, w') else (Return r, w').

(** [discover_devices]: the reply of [find_all_units] carries, for each
    unit found, the two strings the loop collects before closing it. *)
Definition discover_devices : M (list (string * string)) :=
  if negb (PICOSDK_AVAILABLE sdk) then ret []
  else
    try_except
      (r <- foreign find_all_units ;;
       ret (r_devices r))
      (fun _ => ret []).

(** [connect] *)
Definition connect (device_index : Z) (serial : option string) : M bool :=
  if negb (PICOSDK_AVAILABLE sdk) then ret false
  else
    try_except
      (set_chandle (Some 0) ;;
       let resolution := PS5000A_DR_12BIT in
       let serial_bytes :=
         match serial with
         | Some s => if String.eqb s EmptyString then None else Some s
         | None => None
         end in
       r <- foreign (ps5000aOpenUnit serial_bytes resolution) ;;
       set_chandle (Some (r_handle r)) ;;
       status_store "openunit" (r_status r) ;;
       try_except
         (assert_pico_ok (r_status r))
         (fun e =>
            let power_status := r_status r in
            if (power_status =? 286) || (power_status =? 282) then
              s <- get_self ;;
              r' <- foreign (ps5000aChangePowerSource (chandle s) power_status) ;;
              status_store "changePowerSource" (r_status r') ;;
              assert_pico_ok (r_status r')
            else raise e) ;;
       s <- get_self ;;
       r1 <- foreign (ps5000aGetUnitInfo (chandle s) 256 PICO_VARIANT_INFO) ;;
       status_store "getUnitInfo" (r_status r1) ;;
       variant <- lift (match r_info r1 with
                        | Some v => Ok v
                        | None => Raise UnicodeDecodeError
                        end) ;;
       r2 <- foreign (ps5000aGetUnitInfo (chandle s) 256 PICO_BATCH_AND_SERIAL) ;;
       status_store "getUnitInfo" (r_status r2) ;;
       batch_serial <- lift (match r_info r2 with
                             | Some v => Ok v
                             | None => Raise UnicodeDecodeError
                             end) ;;
       set_device_info
         (Some {| handle := r_handle r;
                  model := "PS5000A";
                  serial := batch_serial;
                  variant := variant;
                  batch_and_serial := batch_serial;
                  max_adc_value := 32767;
                  min_adc_value := -32767;
                  num_channels := 4 |}) ;;
       ret true)
      (fun _ =>
         set_chandle None ;;
         set_device_info None ;;
         ret false).

(** [disconnect] *)
Definition disconnect : M bool :=
  try_except
    (s <- get_self ;;
     (if chandle_truthy s then
        foreign (ps5000aStop (chandle s)) ;;
        foreign (ps5000aCloseUnit (chandle s)) ;;
        set_chandle None ;;
        set_current_device None ;;
        set_device_info None ;;
        s' <- get_self ;;
        set_channel_configs (dict_clear (channel_configs s')) ;;
        set_status (dict_clear (status s'))
      else ret tt) ;;
     ret true)
    (fun _ => ret false).

(** [is_connected] *)
Definition is_connected (s : PicoScopeManager) : bool :=
  match current_device s with
  | Some _ => true
  | None => false
  end.

(** [get_info] *)
Definition get_info (s : PicoScopeManager) : option DeviceInfo :=
  device_info s.

(** The literal [channel_map] of [configure_channel] and [capture_block]. *)
Definition channel_map : dict ps5000a_channel :=
  [ ("A", PS5000A_CHANNEL_A); ("B", PS5000A_CHANNEL_B);
    ("C", PS5000A_CHANNEL_C); ("D", PS5000A_CHANNEL_D) ]%string.

(** [d[k]] on a dictionary: [KeyError] when the key is missing. *)
Definition dict_index {V} (d : dict V) (k : string) : pyresult V :=
  match dict_get d k with
  | Some v => Ok v
  | None => Raise KeyError
  end.

(** The [if self.device_info: ... else: ...] block of [configure_channel]:
    the analog offset in ADC counts. *)
Definition offset_to_adc (s : PicoScopeManager) (config : ChannelConfig)
           (voltage_range : ps5000a_range) : pyresult Z :=
  match device_info s with
  | Some info =>
      mV2adc sdk (analog_offset config * 1000)%Q voltage_range
             (max_adc_value info)
  | None => Ok 0
  end.

(** [configure_channel] *)
Definition configure_channel (config : ChannelConfig) : M bool :=
  s <- get_self ;;
  if negb (is_connected s) then ret false
  else
    try_except
      (picosdk_name ;;
       if negb (dict_mem channel_map (channel config)) then ret false
       else
         let coupling :=
           match coupling config with
           | AC => PS5000A_AC
           | DC => PS5000A_DC
           end in
         voltage_range <- lift (nearest_ps_range (voltage_range config)) ;;
         analog_offset_adc <- lift (offset_to_adc s config voltage_range) ;;
         ch <- lift (dict_index channel_map (channel config)) ;;
         r <- foreign (ps5000aSetChannel (chandle s) ch
                         (if enabled config then 1 else 0)
                         coupling voltage_range analog_offset_adc) ;;
         status_store ("setCh" ++ channel config) (r_status r) ;;
         assert_pico_ok (r_status r) ;;
         s' <- get_self ;;
         set_channel_configs
           (dict_set (channel_configs s') (channel config) config) ;;
         ret true)
      (fun _ => ret false).

(** The literal [source_map] of [set_trigger]. *)
Definition source_map : dict ps5000a_channel :=
  [ ("A", PS5000A_CHANNEL_A); ("B", PS5000A_CHANNEL_B);
    ("C", PS5000A_CHANNEL_C); ("D", PS5000A_CHANNEL_D);
    ("External", PS5000A_EXTERNAL) ]%string.

(** [direction_map[config.direction.value]] *)
Definition direction_map (d : TriggerDirection) : ps5000a_threshold_direction :=
  match d with
  | RISING => PS5000A_RISING
  | FALLING => PS5000A_FALLING
  | RISING_OR_FALLING => PS5000A_RISING_OR_FALLING
  end.

(** The range [set_trigger] converts the threshold against: the
    [if config.source in self.channel_configs: ... else: ...] block. *)
Definition trigger_voltage_range (configs : dict ChannelConfig) (src : string)
  : pyresult ps5000a_range :=
  if dict_mem configs src then
    pybind (dict_index configs src) (fun ch_config =>
    nearest_ps_range (voltage_range ch_config))
  else Ok PS5000A_2V.

(** [self.device_info.max_adc_value if self.device_info else 32767] *)
Definition max_adc_or_default (s : PicoScopeManager) : Z :=
  match device_info s with
  | Some info => max_adc_value info
  | None => 32767
  end.

(** [set_trigger] *)
Definition set_trigger (config : TriggerConfig) : M bool :=
  s <- get_self ;;
  if negb (is_connected s) then ret false
  else
    try_except
      (picosdk_name ;;
       if negb (dict_mem source_map (source config)) then ret false
       else
         let direction := direction_map (direction config) in
         voltage_range <-
           lift (trigger_voltage_range (channel_configs s) (source config)) ;;
         threshold_adc <-
           lift (mV2adc sdk (threshold_mv config) voltage_range
                        (max_adc_or_default s)) ;;
         src <- lift (dict_index source_map (source config)) ;;
         r <- foreign (ps5000aSetSimpleTrigger (chandle s) 1 src threshold_adc
                         direction 0 (auto_trigger_ms config)) ;;
         status_store "trigger" (r_status r) ;;
         assert_pico_ok (r_status r) ;;
         ret true)
      (fun _ => ret false).

(** The body of the first loop of [capture_block]: a buffer for an enabled
    channel, registered with the driver.  [buffers] maps a channel name to
    its buffer; the buffer allocated for [ch_name] is named by [ch_name].
    [self.chandle] does not change during [capture_block]: [h] is its
    value. *)
Definition buffer_body (h : option Z) (total_samples : Z)
           (item : string * ChannelConfig) (buffers : dict string)
  : M (dict string) :=
  let '(ch_name, ch_config) := item in
  if enabled ch_config then
    (* (ctypes.c_int16 * total_samples)() *)
    (if total_samples <? 0 then raise ValueError else ret tt) ;;
    let buffers' := dict_set buffers ch_name ch_name in
    ch <- lift (dict_index channel_map ch_name) ;;
    r <- foreign (ps5000aSetDataBuffer h ch ch_name total_samples 0
                    PS5000A_RATIO_MODE_NONE) ;;
    status_store ("setDataBuffer" ++ ch_name) (r_status r) ;;
    assert_pico_ok (r_status r) ;;
    ret buffers'
  else ret buffers.

(** The first loop of [capture_block]: one buffer per enabled channel. *)
Definition setup_buffers (h : option Z) (total_samples : Z)
           (items : list (string * ChannelConfig)) : M (dict string) :=
  for_each items (buffer_body h total_samples) [].

(** [self.status["getTimebase"]] *)
Definition getTimebase_status : M Z :=
  s <- get_self ;; lift (dict_index (status s) "getTimebase").

(** The condition of the timebase loop:
    [self.status["getTimebase"] != 0 and timebase < 100]. *)
Definition timebase_cond (x : Z * Q) : M bool :=
  let '(timebase, _) := x in
  st <- getTimebase_status ;;
  ret (negb (st =? 0) && (timebase <? 100)).

(** The body of the timebase loop. *)
Definition timebase_body (h : option Z) (total_samples : Z) (x : Z * Q)
  : M (Z * Q) :=
  let '(timebase, _) := x in
  let timebase := timebase + 1 in
  r <- foreign (ps5000aGetTimebase2 h timebase total_samples 0) ;;
  status_store "getTimebase" (r_status r) ;;
  ret (timebase, r_interval r).

(** Timebase negotiation of [capture_block]: the locals are [timebase]
    and [time_interval_ns.value]. *)
Definition negotiate_timebase (fuel : nat) (h : option Z) (total_samples : Z)
  : M (Z * Q) :=
  let timebase := 0 in
  r <- foreign (ps5000aGetTimebase2 h timebase total_samples 0) ;;
  status_store "getTimebase" (r_status r) ;;
  x <- while fuel timebase_cond (timebase_body h total_samples)
         (timebase, r_interval r) ;;
  st <- getTimebase_status ;;
  assert_pico_ok st ;;
  ret x.

(** The body of the busy wait. *)
Definition ready_body (h : option Z) (ready : Z) : M Z :=
  r <- foreign (ps5000aIsReady h) ;;
  status_store "isReady" (r_status r) ;;
  ret (r_ready r).

(** The busy wait of [capture_block]: the local is [ready.value]. *)
Definition wait_ready (fuel : nat) (h : option Z) : M Z :=
  let check := 0 in
  while fuel (fun ready => ret (ready =? check)) (ready_body h) 0.

(** [np.arange(total_samples) * (time_interval_ns.value / 1e9)] *)
Definition time_axis (total_samples : Z) (time_interval_ns : Q) : list Q :=
  map (fun i => (inject_Z (Z.of_nat i) * (time_interval_ns / 1e9))%Q)
      (seq 0 (Z.to_nat total_samples)).

(** The body of the last loop of [capture_block]: the [CaptureData] of one
    buffer.  [data] is what the driver left in the buffers. *)
Definition result_body (s : PicoScopeManager) (total_samples : Z)
           (time_interval_ns : Q) (data : string -> nat -> Z)
           (item : string * string) (result : dict CaptureData)
  : M (dict CaptureData) :=
  let '(ch_name, buffer) := item in
  let time_values := time_axis total_samples time_interval_ns in
  ch_config <- lift (dict_index (channel_configs s) ch_name) ;;
  voltage_range <- lift (nearest_ps_range (voltage_range ch_config)) ;;
  let adc_array := map (data buffer) (seq 0 (Z.to_nat total_samples)) in
  voltage_mv <- lift (adc2mV sdk adc_array voltage_range
                             (max_adc_or_default s)) ;;
  ret (dict_set result ch_name
         {| cd_channel := ch_name;
            time_values := time_values;
            voltage_values := voltage_mv;
            sample_interval_ns := py_int time_interval_ns;
            num_samples := total_samples |}).

(** The last loop of [capture_block]: one [CaptureData] per buffer. *)
Definition build_result (s : PicoScopeManager) (total_samples : Z)
           (time_interval_ns : Q) (data : string -> nat -> Z)
           (buffers : dict string) : M (dict CaptureData) :=
  for_each (dict_items buffers)
           (result_body s total_samples time_interval_ns data) [].

(** [capture_block]; [fuel] bounds the iterations of each [while]. *)
Definition capture_block (fuel : nat) (pre_trigger post_trigger : Z)
  : M (option (dict CaptureData)) :=
  s <- get_self ;;
  if negb (is_connected s) then ret None
  else
    try_except
      (let total_samples := pre_trigger + post_trigger in
       picosdk_name ;;
       buffers <- setup_buffers (chandle s) total_samples
                    (dict_items (channel_configs s)) ;;
       '(timebase, time_interval_ns) <-
         negotiate_timebase fuel (chandle s) total_samples ;;
       r <- foreign (ps5000aRunBlock (chandle s) pre_trigger post_trigger
                       timebase 0) ;;
       status_store "runBlock" (r_status r) ;;
       assert_pico_ok (r_status r) ;;
       wait_ready fuel (chandle s) ;;
       r <- foreign (ps5000aGetValues (chandle s) 0 total_samples 1
                       PS5000A_RATIO_MODE_NONE 0) ;;
       status_store "getValues" (r_status r) ;;
       assert_pico_ok (r_status r) ;;
       s' <- get_self ;;
       result <- build_result s' total_samples time_interval_ns
                   (r_buffer r) buffers ;;
       ret (Some result))
      (fun _ => ret None).

(** [start_streaming] *)
Definition start_streaming (sample_interval_ns buffer_size : Z) : M bool :=
  s <- get_self ;;
  if negb (is_connected s) then ret false else ret true.

(** [stop_streaming] *)
Definition stop_streaming : M bool :=
  s <- get_self ;;
  if negb (is_connected s) then ret false else ret true.

End Manager.


(* ------------------------------------------------------------------ *)
(** ** Sequences of operations                                          *)
(* ------------------------------------------------------------------ *)

(** A call of one public method of the manager, with its arguments
    ([CaptureBlock] also with the fuel of its loops). *)
Inductive operation : Type :=
| DiscoverDevices
| Connect (device_index : Z) (serial : option string)
| Disconnect
| IsConnected
| GetInfo
| ConfigureChannel (config : ChannelConfig)
| SetTrigger (config : TriggerConfig)
| CaptureBlock (fuel : nat) (pre_trigger post_trigger : Z)
| StartStreaming (sample_interval_ns buffer_size : Z)
| StopStreaming.

Definition run_operation (sdk : picosdk) (o : operation) : M unit :=
  match o with
  | DiscoverDevices => discover_devices sdk ;; ret tt
  | Connect device_index serial => connect sdk device_index serial ;; ret tt
  | Disconnect => disconnect sdk ;; ret tt
  | IsConnected => s <- get_self ;; let _ := is_connected s in ret tt
  | GetInfo => s <- get_self ;; let _ := get_info s in ret tt
  | ConfigureChannel config => configure_channel sdk config ;; ret tt
  | SetTrigger config => set_trigger sdk config ;; ret tt
  | CaptureBlock fuel pre_trigger post_trigger =>
      capture_block sdk fuel pre_trigger post_trigger ;; ret tt
  | StartStreaming sample_interval_ns buffer_size =>
      start_streaming sample_interval_ns buffer_size ;; ret tt
  | StopStreaming => stop_streaming ;; ret tt
  end.

Fixpoint run_operations (sdk : picosdk) (ops : list operation) : M unit :=
  match ops with
  | [] => ret tt
  | o :: r => run_operation sdk o ;; run_operations sdk r
  end.

(** What a method may do to [current_device].  [keeps I m]: [m] keeps the
    property [I] of [current_device] and does not run out of fuel;
    [total I m]: moreover [m] returns. *)
Definition keeps (I : option pyobject -> Prop) {A} (m : M A) : Prop :=
  forall w, I (current_device (self w)) ->
            I (current_device (self (snd (m w)))) /\ fst (m w) <> OutOfFuel.

Definition total (I : option pyobject -> Prop) {A} (m : M A) : Prop :=
  forall w, I (current_device (self w)) ->
            I (current_device (self (snd (m w)))) /\
            exists a, fst (m w) = Return a.

(** The session apart from the [status] dictionary. *)
Definition same_session (s s' : PicoScopeManager) : Prop :=
  current_device s' = current_device s /\
  device_info s' = device_info s /\
  channel_configs s' = channel_configs s /\
  chandle s' = chandle s.

(** The first [n] timebase requests of a negotiation, and the driver's
    answer to request number [i] of a negotiation that starts after
    [history]. *)
Definition attempt_calls (h : option Z) (total_samples : Z) (n : nat)
  : list call :=
  map (fun i => ps5000aGetTimebase2 h (Z.of_nat i) total_samples 0) (seq 0 n).

Definition attempt_reply (sdk : picosdk) (history : list call) (h : option Z)
           (total_samples : Z) (i : nat) : reply :=
  respond sdk (history ++ attempt_calls h total_samples i)
          (ps5000aGetTimebase2 h (Z.of_nat i) total_samples 0).

(** The buffers [setup_buffers] ends with. *)
Definition enabled_buffers (items : list (string * ChannelConfig))
           (acc : dict string) : dict string :=
  fold_left (fun buffers '(ch_name, ch_config) =>
               if enabled ch_config then dict_set buffers ch_name ch_name
               else buffers)
            items acc.


(** A driver with which a capture goes through: nothing raises, buffers,
    run and readout are accepted, timebase [T] is accepted whatever came
    before, and the ready flag is set within [N] polls. *)
Record cooperative (sdk : picosdk) (T : nat) (N : nat) : Prop := {
  coop_available : PICOSDK_AVAILABLE sdk = true;
  coop_no_raise : forall history c, r_raises (respond sdk history c) = false;
  coop_buffer : forall history h ch b n seg m,
      r_status (respond sdk history (ps5000aSetDataBuffer h ch b n seg m)) = 0;
  coop_timebase_index : (T <= 100)%nat;
  coop_timebase : forall history h n seg,
      r_status (respond sdk history (ps5000aGetTimebase2 h (Z.of_nat T) n seg))
      = 0;
  coop_run : forall history h pre post tb seg,
      r_status (respond sdk history (ps5000aRunBlock h pre post tb seg)) = 0;
  coop_ready : forall history h, exists k,
      (k < N)%nat /\
      r_ready (respond sdk (history ++ repeat (ps5000aIsReady h) k)
                       (ps5000aIsReady h)) <> 0;
  coop_values : forall history h start n ratio m seg,
      r_status (respond sdk history (ps5000aGetValues h start n ratio m seg))
      = 0;
  coop_adc2mV : forall l r m, exists v, adc2mV sdk l r m = Ok v
}.

(** The [ps5000aGetTimebase2] calls in a history. *)
Definition is_GetTimebase2 (c : call) : bool :=
  match c with
  | ps5000aGetTimebase2 _ _ _ _ => true
  | _ => false
  end.

Definition timebase_attempts (history : list call) : nat :=
  List.length (filter is_GetTimebase2 history).

(* ------------------------------------------------------------------ *)
(** ** Drivers and sessions used as examples                            *)
(* ------------------------------------------------------------------ *)

(** Full scale of a range in millivolts. *)
Definition range_millivolts (r : ps5000a_range) : Q :=
  match r with
  | PS5000A_20MV => 20 | PS5000A_50MV => 50 | PS5000A_100MV => 100
  | PS5000A_200MV => 200 | PS5000A_500MV => 500 | PS5000A_1V => 1000
  | PS5000A_2V => 2000 | PS5000A_5V => 5000 | PS5000A_10V => 10000
  | PS5000A_20V => 20000
  end.

(** A driver that accepts every call, reports the sample interval [t] and
    is ready at the first poll. *)
Definition accepting_reply (t : Q) : reply := {|
  r_raises := false;
  r_status := 0;
  r_handle := 16384;
  r_info := Some "5444D"%string;
  r_interval := t;
  r_ready := 1;
  r_buffer := fun _ i => Z.of_nat i;
  r_devices := []
|}.

Definition example_mV2adc (mv : Q) (r : ps5000a_range) (max_adc : Z)
  : pyresult Z :=
  Ok (py_int (mv * inject_Z max_adc / range_millivolts r)%Q).

Definition example_adc2mV (l : list Z) (r : ps5000a_range) (max_adc : Z)
  : pyresult (list Q) :=
  Ok (map (fun x => (inject_Z x * range_millivolts r / inject_Z max_adc)%Q) l).

Definition accepting_sdk (t : Q) : picosdk := {|
  PICOSDK_AVAILABLE := true;
  respond := fun _ _ => accepting_reply t;
  mV2adc := example_mV2adc;
  adc2mV := example_adc2mV
|}.

(** A driver that rejects [ps5000aSetChannel] (PICO_INVALID_CHANNEL) and
    every timebase (PICO_INVALID_TIMEBASE), and accepts the rest. *)
Definition rejecting_sdk : picosdk := {|
  PICOSDK_AVAILABLE := true;
  respond := fun _ c =>
    match c with
    | ps5000aSetChannel _ _ _ _ _ _ =>
        {| r_raises := false; r_status := 15; r_handle := 16384;
           r_info := None; r_interval := 0; r_ready := 0;
           r_buffer := fun _ _ => 0; r_devices := [] |}
    | ps5000aGetTimebase2 _ _ _ _ =>
        {| r_raises := false; r_status := 14; r_handle := 16384;
           r_info := None; r_interval := 0; r_ready := 0;
           r_buffer := fun _ _ => 0; r_devices := [] |}
    | _ => accepting_reply 2
    end;
  mV2adc := example_mV2adc;
  adc2mV := example_adc2mV
|}.

(** A driver that rejects timebase 0, as the PS5000A does at 12 bits, and
    is ready at a poll that follows two polls. *)
Definition slow_sdk : picosdk := {|
  PICOSDK_AVAILABLE := true;
  respond := fun history c =>
    match c with
    | ps5000aGetTimebase2 _ timebase _ _ =>
        if timebase =? 1 then accepting_reply 2
        else
          {| r_raises := false; r_status := 14; r_handle := 16384;
             r_info := None; r_interval := 0; r_ready := 0;
             r_buffer := fun _ _ => 0; r_devices := [] |}
    | ps5000aIsReady _ =>
        match rev history with
        | ps5000aIsReady _ :: ps5000aIsReady _ :: _ => accepting_reply 2
        | _ =>
            {| r_raises := false; r_status := 0; r_handle := 16384;
               r_info := None; r_interval := 0; r_ready := 0;
               r_buffer := fun _ _ => 0; r_devices := [] |}
        end
    | _ => accepting_reply 2
    end;
  mV2adc := example_mV2adc;
  adc2mV := example_adc2mV
|}.

(** A driver that accepts no timebase but 100. *)
Definition timebase_100_sdk : picosdk := {|
  PICOSDK_AVAILABLE := true;
  respond := fun _ c =>
    match c with
    | ps5000aGetTimebase2 _ timebase _ _ =>
        if timebase =? 100 then accepting_reply 1568
        else
          {| r_raises := false; r_status := 14; r_handle := 16384;
             r_info := None; r_interval := 0; r_ready := 0;
             r_buffer := fun _ _ => 0; r_devices := [] |}
    | _ => accepting_reply 2
    end;
  mV2adc := example_mV2adc;
  adc2mV := example_adc2mV
|}.

Definition example_device_info : DeviceInfo := {|
  handle := 16384;
  model := "PS5000A";
  serial := "5444D";
  variant := "5444D";
  batch_and_serial := "5444D";
  max_adc_value := 32767;
  min_adc_value := -32767;
  num_channels := 4
|}.

(** A session whose [is_connected] holds, with the given stored
    configurations. *)
Definition connected_world (configs : dict ChannelConfig) : world := {|
  self := {| current_device := Some (PyObject 1);
             device_info := Some example_device_info;
             channel_configs := configs;
             chandle := Some 16384;
             status := [] |};
  trace := []
|}.

Definition channel_A_5V : ChannelConfig := {|
  channel := "A";
  enabled := true;
  coupling := DC;
  voltage_range := 5.0;
  analog_offset := 0
|}.

Definition channel_B_1V : ChannelConfig := {|
  channel := "B";
  enabled := true;
  coupling := DC;
  voltage_range := 1.0;
  analog_offset := 0
|}.

Definition channel_B_disabled : ChannelConfig := {|
  channel := "B";
  enabled := false;
  coupling := AC;
  voltage_range := 1.0;
  analog_offset := 0
|}.


(* ------------------------------------------------------------------ *)
(** ** Reasoning about a run                                            *)
(* ------------------------------------------------------------------ *)

(** [wp m Q w]: running [m] from [w] ends in an outcome and a world that
    satisfy [Q]. *)
Definition wp {A} (m : M A) (Q : outcome A -> world -> Prop) (w : world)
  : Prop :=
  Q (fst (m w)) (snd (m w)).

(** [unchanged proj m]: [m] leaves the part [proj] of the object as it
    found it, however it ends. *)
Definition unchanged {T A} (proj : PicoScopeManager -> T) (m : M A) : Prop :=
  forall w, proj (self (snd (m w))) = proj (self w).

(** [emits P m]: [m] only adds calls to the history, and every call it
    adds satisfies [P]. *)
Definition emits {A} (P : call -> Prop) (m : M A) : Prop :=
  forall w, exists calls,
    trace (snd (m w)) = trace w ++ calls /\ Forall P calls.

(** The session apart from [status], as one value. *)
Definition session_of (s : PicoScopeManager)
  : option pyobject * option DeviceInfo * dict ChannelConfig * option Z :=
  (current_device s, device_info s, channel_configs s, chandle s).

(** The object with another [status]. *)
Definition with_status (s : PicoScopeManager) (v : dict Z) : PicoScopeManager :=
  {| current_device := current_device s;
     device_info := device_info s;
     channel_configs := channel_configs s;
     chandle := chandle s;
     status := v |}.

(** The world after a foreign call [c] that returned. *)
Definition called (w : world) (c : call) : world :=
  {| self := self w; trace := trace w ++ [c] |}.

(** The world after [self.status[key] = st]. *)
Definition stored (w : world) (key : string) (st : Z) : world :=
  {| self := with_status (self w) (dict_set (status (self w)) key st);
     trace := trace w |}.

(** [connect]'s [serial.encode() if serial else None]. *)
Definition serial_bytes_of (serial : option string) : option string :=
  match serial with
  | Some s => if String.eqb s EmptyString then None else Some s
  | None => None
  end.

(** The [DeviceInfo] [connect] stores. *)
Definition connected_info (h : Z) (variant batch_serial : string) : DeviceInfo :=
  {| handle := h;
     model := "PS5000A";
     serial := batch_serial;
     variant := variant;
     batch_and_serial := batch_serial;
     max_adc_value := 32767;
     min_adc_value := -32767;
     num_channels := 4 |}.

(** A driver whose [ps5000aGetUnitInfo] answers PICO_INVALID_HANDLE (3)
    and still leaves a string in the buffer. *)
Definition info_error_sdk : picosdk := {|
  PICOSDK_AVAILABLE := true;
  respond := fun _ c =>
    match c with
    | ps5000aGetUnitInfo _ _ _ =>
        {| r_raises := false; r_status := 3; r_handle := 16384;
           r_info := Some "5444D"%string; r_interval := 0; r_ready := 0;
           r_buffer := fun _ _ => 0; r_devices := [] |}
    | _ => accepting_reply 2
    end;
  mV2adc := example_mV2adc;
  adc2mV := example_adc2mV
|}.

(** A driver that opens the unit with the status [open_status] and answers
    every other call with [other_status]. *)
Definition open_status_sdk (open_status other_status : Z) : picosdk := {|
  PICOSDK_AVAILABLE := true;
  respond := fun _ c =>
    match c with
    | ps5000aOpenUnit _ _ =>
        {| r_raises := false; r_status := open_status; r_handle := 16384;
           r_info := None; r_interval := 0; r_ready := 0;
           r_buffer := fun _ _ => 0; r_devices := [] |}
    | _ =>
        {| r_raises := false; r_status := other_status; r_handle := 16384;
           r_info := Some "5444D"%string; r_interval := 2; r_ready := 1;
           r_buffer := fun _ _ => 0; r_devices := [] |}
    end;
  mV2adc := example_mV2adc;
  adc2mV := example_adc2mV
|}.

(** What every [CaptureData] of one capture has: its channel name, the
    time axis and interval of the capture, the sample count. *)
Definition capture_entry (total_samples : Z) (t : Q) (name : string)
           (cd : CaptureData) : Prop :=
  cd_channel cd = name /\
  time_values cd = time_axis total_samples t /\
  sample_interval_ns cd = py_int t /\
  num_samples cd = total_samples.

(* ------------------------------------------------------------------ *)
(** * Properties                                                        *)
(* ------------------------------------------------------------------ *)

(** ** Nearest supported range *)

Lemma py_min_by_In {A} (key : A -> Q) (l : list A) (best : A) :
  In (py_min_by key best l) (best :: l).
Proof.
  revert best; induction l as [|x r IH]; intros best; simpl.
  - now left.
  - destruct (Qlt_le_dec (key x) (key best)).
    + destruct (IH x) as [E|I]; [right; left; exact E | right; right; exact I].
    + destruct (IH best) as [E|I]; [left; exact E | right; right; exact I].
Qed.

Lemma py_min_by_le_best {A} (key : A -> Q) (l : list A) (best : A) :
  (key (py_min_by key best l) <= key best)%Q.
Proof.
  revert best; induction l as [|x r IH]; intros best; simpl.
  - apply Qle_refl.
  - destruct (Qlt_le_dec (key x) (key best)) as [Hlt|Hle].
    + eapply Qle_trans; [apply IH | apply Qlt_le_weak, Hlt].
    + apply IH.
Qed.

Lemma py_min_by_minimal {A} (key : A -> Q) (l : list A) (best y : A) :
  In y (best :: l) -> (key (py_min_by key best l) <= key y)%Q.
Proof.
  revert best; induction l as [|x r IH]; intros best Hy.
  - destruct Hy as [<-|[]]; apply Qle_refl.
  - simpl. destruct (Qlt_le_dec (key x) (key best)) as [Hlt|Hle].
    + destruct Hy as [<-|[<-|Hy]].
      * eapply Qle_trans; [apply py_min_by_le_best | apply Qlt_le_weak, Hlt].
      * apply py_min_by_le_best.
      * apply IH; now right.
    + destruct Hy as [<-|[<-|Hy]].
      * apply py_min_by_le_best.
      * eapply Qle_trans; [apply py_min_by_le_best | exact Hle].
      * apply IH; now right.
Qed.



Lemma closest_range_spec (r : Q) :
  exists k, closest_range r = Ok k /\ In k range_map_keys /\
            forall y, In y range_map_keys -> (Qabs (k - r) <= Qabs (y - r))%Q.
Proof.
  unfold closest_range, range_map_keys, range_map, py_min; cbn [map fst].
  eexists; split; [reflexivity|]; split.
  - apply (py_min_by_In (fun x => Qabs (x - r))).
  - intros y Hy. apply (py_min_by_minimal (fun x => Qabs (x - r))); exact Hy.
Qed.

Lemma range_map_get_key (k : Q) :
  In k range_map_keys -> exists v, range_map_get range_map k = Ok v.
Proof.
  unfold range_map_keys, range_map; simpl; intros Hk.
  repeat (destruct Hk as [<-|Hk]; [eexists; vm_compute; reflexivity|]).
  contradiction.
Qed.

(** [nearest_ps_range] never raises. *)
Lemma nearest_ps_range_total (r : Q) : exists v, nearest_ps_range r = Ok v.
Proof.
  destruct (closest_range_spec r) as (k & Hk & Hin & _).
  unfold nearest_ps_range; rewrite Hk; simpl.
  now apply range_map_get_key.
Qed.




(** ** Unit conversion *)




(** [int] moves a number by less than one, toward zero. *)
Lemma py_int_within_one (q : Q) (x : Z) :
  (Qabs (q - inject_Z x) < 1)%Q -> Z.abs (py_int q - x) <= 1.
Proof.
  intros H. apply Qabs_Qlt_condition in H. destruct H as [Hlo Hhi].
  destruct q as [n d]. unfold py_int; simpl.
  unfold Qlt, Qminus, Qplus, Qopp, inject_Z in Hlo, Hhi; simpl in Hlo, Hhi.
  rewrite ?Pos.mul_1_r, ?Z.mul_1_r in Hlo, Hhi.
  change (Z.neg d) with (- Z.pos d) in Hlo.
  assert (Hd : Z.pos d <> 0) by discriminate.
  pose proof (Z.quot_rem' n (Z.pos d)) as Hqr.
  pose proof (Z.rem_bound_abs n (Z.pos d) Hd) as Hab.
  destruct (Z.le_gt_cases 0 n) as [Hn|Hn].
  - pose proof (Z.rem_nonneg n (Z.pos d) Hd Hn). nia.
  - assert (Hn' : n <= 0) by lia.
    pose proof (Z.rem_nonpos n (Z.pos d) Hd Hn'). nia.
Qed.








(* ------------------------------------------------------------------ *)
(** ** Running a method                                                 *)
(* ------------------------------------------------------------------ *)

Lemma bind_Return {A B} (m : M A) (k : A -> M B) (w w' : world) (a : A) :
  m w = (Return a, w') -> bind m k w = k a w'.
Proof. unfold bind; intros ->; reflexivity. Qed.

Lemma bind_Raised {A B} (m : M A) (k : A -> M B) (w w' : world) (e : exn) :
  m w = (Raised e, w') -> bind m k w = (Raised e, w').
Proof. unfold bind; intros ->; reflexivity. Qed.

Lemma bind_OutOfFuel {A B} (m : M A) (k : A -> M B) (w w' : world) :
  m w = (OutOfFuel, w') -> bind m k w = (OutOfFuel, w').
Proof. unfold bind; intros ->; reflexivity. Qed.

(** Rules for [keeps] and [total], for a property [I] that [None] has. *)
Section Invariant.
Variable sdk : picosdk.
Variable I : option pyobject -> Prop.
Hypothesis I_None : I None.

Lemma total_keeps {A} (m : M A) : total I m -> keeps I m.
Proof.
  intros H w Hw. destruct (H w Hw) as [Hi [a Ha]].
  split; [exact Hi | rewrite Ha; discriminate].
Qed.

Lemma total_ret {A} (a : A) : total I (ret a).
Proof. intros w Hw; split; [exact Hw | now exists a]. Qed.

Lemma total_get_self : total I get_self.
Proof. intros w Hw; split; [exact Hw | now exists (self w)]. Qed.

Lemma total_bind {A B} (m : M A) (k : A -> M B) :
  total I m -> (forall a, total I (k a)) -> total I (bind m k).
Proof.
  intros Hm Hk w Hw. destruct (Hm w Hw) as [Hi [a Ha]].
  unfold bind. destruct (m w) as [o w']; simpl in *; subst o.
  apply Hk, Hi.
Qed.

Lemma keeps_bind {A B} (m : M A) (k : A -> M B) :
  keeps I m -> (forall a, keeps I (k a)) -> keeps I (bind m k).
Proof.
  intros Hm Hk w Hw. destruct (Hm w Hw) as [Hi Hf].
  unfold bind. destruct (m w) as [[a|e|] w']; simpl in *.
  - apply Hk, Hi.
  - split; [exact Hi | discriminate].
  - contradiction.
Qed.

Lemma keeps_raise {A} (e : exn) : keeps I (@raise A e).
Proof. intros w Hw; split; [exact Hw | discriminate]. Qed.

Lemma keeps_lift {A} (r : pyresult A) : keeps I (lift r).
Proof.
  destruct r; simpl; [apply total_keeps, total_ret | apply keeps_raise].
Qed.

Lemma keeps_try_except {A} (body : M A) (handler : exn -> M A) :
  keeps I body -> (forall e, keeps I (handler e)) -> keeps I (try_except body handler).
Proof.
  intros Hb Hh w Hw. destruct (Hb w Hw) as [Hi Hf].
  unfold try_except. destruct (body w) as [[a|e|] w']; simpl in *.
  - split; [exact Hi | discriminate].
  - apply Hh, Hi.
  - contradiction.
Qed.

Lemma total_try_except {A} (body : M A) (handler : exn -> M A) :
  keeps I body -> (forall e, total I (handler e)) -> total I (try_except body handler).
Proof.
  intros Hb Hh w Hw. destruct (Hb w Hw) as [Hi Hf].
  unfold try_except. destruct (body w) as [[a|e|] w']; simpl in *.
  - split; [exact Hi | now exists a].
  - apply Hh, Hi.
  - contradiction.
Qed.

Lemma total_update_self (f : PicoScopeManager -> PicoScopeManager) :
  (forall s, I (current_device s) -> I (current_device (f s))) ->
  total I (update_self f).
Proof. intros Hf w Hw; split; [apply Hf, Hw | now exists tt]. Qed.

Lemma total_set_current_device_None : total I (set_current_device None).
Proof. apply total_update_self; intros s _; exact I_None. Qed.

Lemma total_set_device_info v : total I (set_device_info v).
Proof. apply total_update_self; intros s Hs; exact Hs. Qed.

Lemma total_set_channel_configs v : total I (set_channel_configs v).
Proof. apply total_update_self; intros s Hs; exact Hs. Qed.

Lemma total_set_chandle v : total I (set_chandle v).
Proof. apply total_update_self; intros s Hs; exact Hs. Qed.

Lemma total_set_status v : total I (set_status v).
Proof. apply total_update_self; intros s Hs; exact Hs. Qed.

Lemma total_status_store key st : total I (status_store key st).
Proof.
  unfold status_store. apply total_bind; [apply total_get_self|].
  intros s; apply total_set_status.
Qed.

Lemma keeps_assert_pico_ok st : keeps I (assert_pico_ok st).
Proof.
  unfold assert_pico_ok. destruct (st =? 0);
    [apply total_keeps, total_ret | apply keeps_raise].
Qed.

Lemma keeps_picosdk_name : keeps I (picosdk_name sdk).
Proof.
  unfold picosdk_name. destruct (PICOSDK_AVAILABLE sdk);
    [apply total_keeps, total_ret | apply keeps_raise].
Qed.

Lemma keeps_foreign (c : call) : keeps I (foreign sdk c).
Proof.
  unfold foreign. apply keeps_bind; [apply keeps_picosdk_name|].
  intros _ w Hw. destruct (r_raises (respond sdk (trace w) c)); simpl;
    (split; [exact Hw | discriminate]).
Qed.

(** One step of a syntax-directed proof of [keeps I]. *)
Ltac keeps_step :=
  cbv zeta;
  lazymatch goal with
  | |- keeps I (bind _ _) => apply keeps_bind; [|intros ?]
  | |- keeps I (try_except _ _) => apply keeps_try_except; [|intros ?]
  | |- keeps I (ret _) => apply total_keeps, total_ret
  | |- keeps I (raise _) => apply keeps_raise
  | |- keeps I (lift _) => apply keeps_lift
  | |- keeps I (foreign _ _) => apply keeps_foreign
  | |- keeps I (picosdk_name _) => apply keeps_picosdk_name
  | |- keeps I get_self => apply total_keeps, total_get_self
  | |- keeps I (status_store _ _) => apply total_keeps, total_status_store
  | |- keeps I (assert_pico_ok _) => apply keeps_assert_pico_ok
  | |- keeps I (set_chandle _) => apply total_keeps, total_set_chandle
  | |- keeps I (set_device_info _) => apply total_keeps, total_set_device_info
  | |- keeps I (set_channel_configs _) =>
      apply total_keeps, total_set_channel_configs
  | |- keeps I (set_status _) => apply total_keeps, total_set_status
  | |- keeps I (set_current_device None) =>
      apply total_keeps, total_set_current_device_None
  | |- keeps I (if ?b then _ else _) => destruct b
  | |- keeps I (match ?x with _ => _ end) => destruct x
  end.

Lemma total_discover_devices : total I (discover_devices sdk).
Proof.
  unfold discover_devices. destruct (negb (PICOSDK_AVAILABLE sdk)).
  - apply total_ret.
  - apply total_try_except; [repeat keeps_step | intros e; apply total_ret].
Qed.

Lemma total_connect device_index serial : total I (connect sdk device_index serial).
Proof.
  unfold connect. destruct (negb (PICOSDK_AVAILABLE sdk)).
  - apply total_ret.
  - apply total_try_except; [repeat keeps_step|].
    intros e. apply total_bind; [apply total_set_chandle|]; intros _.
    apply total_bind; [apply total_set_device_info|]; intros _.
    apply total_ret.
Qed.

Lemma total_disconnect : total I (disconnect sdk).
Proof.
  unfold disconnect.
  apply total_try_except; [repeat keeps_step | intros e; apply total_ret].
Qed.

(** The loop over the channels calls the driver but never waits. *)
Lemma keeps_for_each {X S} (body : X -> S -> M S) (l : list X) (acc : S) :
  (forall x a, keeps I (body x a)) -> keeps I (for_each l body acc).
Proof.
  intros Hb. revert acc; induction l as [|x r IH]; intros acc; simpl.
  - apply total_keeps, total_ret.
  - apply keeps_bind; [apply Hb | intros a; apply IH].
Qed.

Lemma keeps_setup_buffers h total_samples items :
  keeps I (setup_buffers sdk h total_samples items).
Proof.
  unfold setup_buffers. apply keeps_for_each.
  intros [ch_name ch_config] buffers. unfold buffer_body. repeat keeps_step.
Qed.
End Invariant.

(* ------------------------------------------------------------------ *)
(** ** The connection flag                                              *)
(* ------------------------------------------------------------------ *)

Lemma is_connected_None (s : PicoScopeManager) :
  current_device s = None -> is_connected s = false.
Proof. unfold is_connected; intros ->; reflexivity. Qed.

Lemma configure_channel_not_connected sdk config w :
  is_connected (self w) = false ->
  configure_channel sdk config w = (Return false, w).
Proof.
  intros H. unfold configure_channel, bind, get_self. rewrite H. reflexivity.
Qed.

Lemma set_trigger_not_connected sdk config w :
  is_connected (self w) = false ->
  set_trigger sdk config w = (Return false, w).
Proof.
  intros H. unfold set_trigger, bind, get_self. rewrite H. reflexivity.
Qed.

Lemma capture_block_not_connected sdk fuel pre post w :
  is_connected (self w) = false ->
  capture_block sdk fuel pre post w = (Return None, w).
Proof.
  intros H. unfold capture_block, bind, get_self. rewrite H. reflexivity.
Qed.

Lemma start_streaming_not_connected a b w :
  is_connected (self w) = false -> start_streaming a b w = (Return false, w).
Proof.
  intros H. unfold start_streaming, bind, get_self. rewrite H. reflexivity.
Qed.

Lemma stop_streaming_not_connected w :
  is_connected (self w) = false -> stop_streaming w = (Return false, w).
Proof.
  intros H. unfold stop_streaming, bind, get_self. rewrite H. reflexivity.
Qed.

Lemma total_then_ret_tt {A} (I : option pyobject -> Prop) (m : M A) :
  total I m -> total I (m ;; ret tt).
Proof. intros H. apply total_bind; [exact H | intros _; apply total_ret]. Qed.

Lemma total_run_operation sdk (o : operation) :
  total (fun d => d = None) (run_operation sdk o).
Proof.
  assert (guarded : forall {A} (m : M A) (a : A),
             (forall w, is_connected (self w) = false -> m w = (Return a, w)) ->
             total (fun d => d = None) (m ;; ret tt)).
  { intros A m a Hm w Hw.
    rewrite (bind_Return _ _ w w a) by (apply Hm, is_connected_None, Hw).
    split; [exact Hw | now exists tt]. }
  destruct o; simpl.
  - apply total_then_ret_tt, total_discover_devices; reflexivity.
  - apply total_then_ret_tt, total_connect; reflexivity.
  - apply total_then_ret_tt, total_disconnect; reflexivity.
  - apply total_bind; [apply total_get_self | intros s; apply total_ret].
  - apply total_bind; [apply total_get_self | intros s; apply total_ret].
  - apply (guarded _ _ false); intros w; apply configure_channel_not_connected.
  - apply (guarded _ _ false); intros w; apply set_trigger_not_connected.
  - apply (guarded _ _ None); intros w; apply capture_block_not_connected.
  - apply (guarded _ _ false); intros w; apply start_streaming_not_connected.
  - apply (guarded _ _ false); intros w; apply stop_streaming_not_connected.
Qed.

Lemma total_run_operations sdk (ops : list operation) :
  total (fun d => d = None) (run_operations sdk ops).
Proof.
  induction ops as [|o r IH]; simpl.
  - apply total_ret.
  - apply total_bind; [apply total_run_operation | intros _; exact IH].
Qed.

(** [connect] can succeed, and the session still does not count as
    connected. *)
Example connect_succeeds_not_connected :
  fst (connect (accepting_sdk 2) 0 None init_world) = Return true /\
  chandle (self (snd (connect (accepting_sdk 2) 0 None init_world)))
  = Some 16384 /\
  is_connected (self (snd (connect (accepting_sdk 2) 0 None init_world)))
  = false.
Proof. repeat split; vm_compute; reflexivity. Qed.

(** C1.  Whatever operations are run on a fresh manager, they all return
    and [current_device] is still [None]: [is_connected] is false, also
    right after a further [connect], and [configure_channel], [set_trigger]
    and [capture_block] return their not-connected failure without touching
    the object or the driver. *)
Theorem current_device_stays_None (sdk : picosdk) (ops : list operation) :
  exists w,
    run_operations sdk ops init_world = (Return tt, w) /\
    current_device (self w) = None /\
    is_connected (self w) = false /\
    (forall device_index serial,
        is_connected (self (snd (connect sdk device_index serial w))) = false) /\
    (forall config, configure_channel sdk config w = (Return false, w)) /\
    (forall config, set_trigger sdk config w = (Return false, w)) /\
    (forall fuel pre_trigger post_trigger,
        capture_block sdk fuel pre_trigger post_trigger w = (Return None, w)).
Proof.
  destruct (total_run_operations sdk ops init_world eq_refl) as [Hnone [[] Hret]].
  destruct (run_operations sdk ops init_world) as [o w] eqn:E; simpl in *.
  subst o. exists w.
  pose proof (is_connected_None _ Hnone) as Hc.
  repeat split; try assumption.
  - intros device_index serial.
    apply is_connected_None.
    apply (total_connect sdk (fun d => d = None) device_index serial w Hnone).
  - intros; now apply configure_channel_not_connected.
  - intros; now apply set_trigger_not_connected.
  - intros; now apply capture_block_not_connected.
Qed.

(* ------------------------------------------------------------------ *)
(** ** disconnect                                                       *)
(* ------------------------------------------------------------------ *)

Lemma disconnect_without_handle sdk w :
  chandle_truthy (self w) = false -> disconnect sdk w = (Return true, w).
Proof.
  intros H. unfold disconnect, try_except, bind, get_self. rewrite H.
  reflexivity.
Qed.

Lemma chandle_None_falsy s : chandle s = None -> chandle_truthy s = false.
Proof. unfold chandle_truthy; intros ->; reflexivity. Qed.

(** A [disconnect] that released a handle leaves no handle, no device
    information and empty dictionaries. *)
Lemma disconnect_with_handle sdk w w' :
  chandle_truthy (self w) = true ->
  disconnect sdk w = (Return true, w') ->
  self w' = {| current_device := None; device_info := None;
               channel_configs := []; chandle := None; status := [] |}.
Proof.
  intros H. unfold disconnect, try_except, foreign, picosdk_name.
  unfold bind at 1. unfold get_self at 1. cbn iota. rewrite H.
  unfold bind.
  destruct (PICOSDK_AVAILABLE sdk); simpl; [|discriminate].
  destruct (r_raises (respond sdk (trace w) _)); simpl; [discriminate|].
  destruct (r_raises (respond sdk _ (ps5000aCloseUnit _))); simpl;
    [discriminate|].
  intros E; injection E as <-. reflexivity.
Qed.

(** C10.  [disconnect] on a manager that was never connected, and on any
    session without a handle, returns [True] without raising and changes
    nothing; after a [disconnect] that returned [True], a second one returns
    [True] and changes nothing, and when the first released a handle the
    session has no handle and no stored channel configuration. *)
Theorem disconnect_idempotent (sdk : picosdk) :
  disconnect sdk init_world = (Return true, init_world) /\
  chandle (self init_world) = None /\
  channel_configs (self init_world) = [] /\
  (forall w, chandle (self w) = None -> disconnect sdk w = (Return true, w)) /\
  (forall w w',
      disconnect sdk w = (Return true, w') ->
      disconnect sdk w' = (Return true, w') /\
      (chandle_truthy (self w) = true ->
       chandle (self w') = None /\ channel_configs (self w') = [])).
Proof.
  split; [|split; [|split; [|split]]]; try reflexivity.
  - intros w H. apply disconnect_without_handle, chandle_None_falsy, H.
  - intros w w' E.
    destruct (chandle_truthy (self w)) eqn:Ht.
    + pose proof (disconnect_with_handle sdk w w' Ht E) as Hs.
      split.
      * apply disconnect_without_handle. unfold chandle_truthy.
        rewrite Hs. reflexivity.
      * intros _. rewrite Hs. split; reflexivity.
    + rewrite (disconnect_without_handle sdk w Ht) in E.
      injection E as <-.
      split; [now apply disconnect_without_handle | discriminate].
Qed.

Lemma disconnect_idempotent_witness :
  let w := connected_world [("A"%string, channel_A_5V)] in
  let w' := snd (disconnect (accepting_sdk 2) w) in
  disconnect (accepting_sdk 2) w' = (Return true, w') /\
  chandle (self w') = None /\ channel_configs (self w') = [].
Proof.
  intros w w'.
  destruct (disconnect_idempotent (accepting_sdk 2)) as (_ & _ & _ & _ & H).
  destruct (H w w') as [H2 H3].
  - vm_compute. reflexivity.
  - split; [exact H2 | apply H3; vm_compute; reflexivity].
Defined.

(* ------------------------------------------------------------------ *)
(** ** configure_channel and set_trigger on a connected session         *)
(* ------------------------------------------------------------------ *)

Lemma dict_mem_index {V} (d : dict V) (k : string) :
  dict_mem d k = true -> exists v, dict_index d k = Ok v.
Proof.
  unfold dict_mem, dict_index. destruct (dict_get d k); [|discriminate].
  intros _; now eexists.
Qed.

Lemma foreign_run sdk (c : call) (w : world) :
  PICOSDK_AVAILABLE sdk = true ->
  foreign sdk c w =
  (if r_raises (respond sdk (trace w) c)
   then Raised ForeignError else Return (respond sdk (trace w) c),
   {| self := self w; trace := trace w ++ [c] |}).
Proof.
  intros H. unfold foreign, picosdk_name, bind. rewrite H. simpl.
  destruct (r_raises (respond sdk (trace w) c)); reflexivity.
Qed.

Lemma picosdk_name_run sdk (w : world) :
  PICOSDK_AVAILABLE sdk = true -> picosdk_name sdk w = (Return tt, w).
Proof. intros H. unfold picosdk_name. rewrite H. reflexivity. Qed.

Lemma assert_pico_ok_rejected (st : Z) (w : world) :
  st <> 0 -> assert_pico_ok st w = (Raised PicoSDKCtypesError, w).
Proof.
  intros H. unfold assert_pico_ok.
  destruct (Z.eqb_spec st 0); [contradiction | reflexivity].
Qed.


(** C9.  On a connected session, when [configure_channel] issues
    [ps5000aSetChannel] and the driver answers with a status other than
    PICO_OK (or the call raises), [configure_channel] returns [False], the
    stored configurations are what they were, in particular the entry of
    that channel, and the session is still connected. *)
Theorem configure_channel_rejected_keeps_configs
        (sdk : picosdk) (config : ChannelConfig) (w : world) :
  is_connected (self w) = true ->
  PICOSDK_AVAILABLE sdk = true ->
  dict_mem channel_map (channel config) = true ->
  (forall mv rg m, exists a, mV2adc sdk mv rg m = Ok a) ->
  (forall ch en ty rg off,
      let r := respond sdk (trace w)
                 (ps5000aSetChannel (chandle (self w)) ch en ty rg off) in
      r_raises r = true \/ r_status r <> 0) ->
  exists w' ch en ty rg off,
    configure_channel sdk config w = (Return false, w') /\
    trace w' = trace w ++ [ps5000aSetChannel (chandle (self w)) ch en ty rg off] /\
    channel_configs (self w') = channel_configs (self w) /\
    dict_get (channel_configs (self w')) (channel config)
    = dict_get (channel_configs (self w)) (channel config) /\
    is_connected (self w') = true.
Proof.
  intros Hc Hsdk Hch HmV Hrej.
  destruct (dict_mem_index _ _ Hch) as [ch Hidx].
  destruct (nearest_ps_range_total (voltage_range config)) as [rg Hrg].
  assert (Hoff : exists off, offset_to_adc sdk (self w) config rg = Ok off).
  { unfold offset_to_adc. destruct (device_info (self w)); [apply HmV | now eexists]. }
  destruct Hoff as [off Hoff].
  set (c := ps5000aSetChannel (chandle (self w)) ch
              (if enabled config then 1 else 0)
              (match coupling config with AC => PS5000A_AC | DC => PS5000A_DC end)
              rg off).
  specialize (Hrej ch (if enabled config then 1 else 0)
                (match coupling config with AC => PS5000A_AC | DC => PS5000A_DC end)
                rg off). cbv zeta in Hrej. fold c in Hrej.
  unfold configure_channel.
  unfold bind at 1. unfold get_self at 1. cbn iota. rewrite Hc. cbn [negb].
  unfold try_except.
  rewrite (bind_Return _ _ w w tt) by (now apply picosdk_name_run).
  rewrite Hch. cbn [negb]. cbv zeta.
  rewrite Hrg. cbn [lift]. rewrite (bind_Return _ _ w w rg) by reflexivity.
  rewrite Hoff. cbn [lift]. rewrite (bind_Return _ _ w w off) by reflexivity.
  rewrite Hidx. cbn [lift]. rewrite (bind_Return _ _ w w ch) by reflexivity.
  fold c.
  unfold bind at 1. rewrite (foreign_run sdk c w Hsdk).
  destruct (r_raises (respond sdk (trace w) c)) eqn:Hr.
  - eexists _, _, _, _, _, _. split; [reflexivity|].
    simpl. repeat split; try reflexivity. exact Hc.
  - destruct Hrej as [Hrej|Hrej]; [discriminate|].
    unfold bind at 1. unfold status_store, bind, get_self, set_status, update_self.
    cbn [self trace status].
    rewrite (assert_pico_ok_rejected _ _ Hrej).
    eexists _, _, _, _, _, _. split; [reflexivity|].
    simpl. repeat split; try reflexivity. exact Hc.
Qed.

Lemma configure_channel_rejected_keeps_configs_witness :
  exists w',
    configure_channel rejecting_sdk channel_B_1V
                      (connected_world [("A"%string, channel_A_5V)])
    = (Return false, w') /\
    dict_get (channel_configs (self w')) "B" = None /\
    dict_get (channel_configs (self w')) "A" = Some channel_A_5V /\
    is_connected (self w') = true.
Proof.
  destruct (configure_channel_rejected_keeps_configs
              rejecting_sdk channel_B_1V
              (connected_world [("A"%string, channel_A_5V)]))
    as (w' & ch & en & ty & rg & off & Hrun & _ & Hcfg & _ & Hconn).
  - reflexivity.
  - reflexivity.
  - reflexivity.
  - intros mv rg m. eexists. reflexivity.
  - intros ch en ty rg off. right. simpl. discriminate.
  - exists w'. rewrite Hcfg. repeat split; try assumption; reflexivity.
Defined.

Lemma dict_mem_get {V} (d : dict V) (k : string) (v : V) :
  dict_get d k = Some v -> dict_mem d k = true /\ dict_index d k = Ok v.
Proof. unfold dict_mem, dict_index; intros ->; split; reflexivity. Qed.









(* ------------------------------------------------------------------ *)
(** ** capture_block: timebase negotiation                              *)
(* ------------------------------------------------------------------ *)

Lemma same_session_refl s : same_session s s.
Proof. repeat split. Qed.

Lemma same_session_trans s1 s2 s3 :
  same_session s1 s2 -> same_session s2 s3 -> same_session s1 s3.
Proof.
  intros (a1 & a2 & a3 & a4) (b1 & b2 & b3 & b4).
  repeat split; congruence.
Qed.

Lemma dict_get_set_same {V} (d : dict V) (k : string) (v : V) :
  dict_get (dict_set d k v) k = Some v.
Proof.
  induction d as [|[k' v'] r IH]; simpl.
  - now rewrite String.eqb_refl.
  - destruct (String.eqb k' k) eqn:E; simpl.
    + now rewrite String.eqb_refl.
    + now rewrite E.
Qed.

Lemma dict_get_set_other {V} (d : dict V) (k k' : string) (v : V) :
  k <> k' -> dict_get (dict_set d k v) k' = dict_get d k'.
Proof.
  intros Hne. induction d as [|[k0 v0] r IH]; simpl.
  - destruct (String.eqb_spec k k'); [contradiction | reflexivity].
  - destruct (String.eqb_spec k0 k) as [->|Hk0]; simpl.
    + destruct (String.eqb_spec k k'); [contradiction | reflexivity].
    + destruct (String.eqb_spec k0 k'); [reflexivity | exact IH].
Qed.

Lemma status_store_run (key : string) (st : Z) (w : world) :
  exists w',
    status_store key st w = (Return tt, w') /\
    same_session (self w) (self w') /\
    trace w' = trace w /\
    dict_get (status (self w')) key = Some st.
Proof.
  eexists. split; [reflexivity|]. simpl.
  split; [repeat split|]. split; [reflexivity|].
  apply dict_get_set_same.
Qed.

Lemma getTimebase_status_run (w : world) (st : Z) :
  dict_get (status (self w)) "getTimebase" = Some st ->
  getTimebase_status w = (Return st, w).
Proof.
  intros H. unfold getTimebase_status, bind, get_self, dict_index.
  rewrite H. reflexivity.
Qed.

Lemma while_unfold {X} (fuel : nat) (cond : X -> M bool) (body : X -> M X)
      (x : X) :
  while fuel cond body x =
  (c <- cond x ;;
   if c then
     match fuel with
     | O => fun w => (OutOfFuel, w)
     | S fuel' => x' <- body x ;; while fuel' cond body x'
     end
   else ret x).
Proof. destruct fuel; reflexivity. Qed.

Lemma attempt_calls_S (h : option Z) (total_samples : Z) (n : nat) :
  attempt_calls h total_samples (S n) =
  attempt_calls h total_samples n
  ++ [ps5000aGetTimebase2 h (Z.of_nat n) total_samples 0].
Proof. unfold attempt_calls. rewrite seq_S, map_app. reflexivity. Qed.

Lemma attempt_calls_length (h : option Z) (total_samples : Z) (n : nat) :
  timebase_attempts (attempt_calls h total_samples n) = n.
Proof.
  unfold timebase_attempts, attempt_calls.
  transitivity (List.length (seq 0 n)); [|apply length_seq].
  induction (seq 0 n) as [|i l IH]; simpl; [reflexivity | now f_equal].
Qed.

Lemma while_stop {X} (fuel : nat) (cond : X -> M bool) (body : X -> M X)
      (x : X) (w w' : world) :
  cond x w = (Return false, w') ->
  while fuel cond body x w = (Return x, w').
Proof.
  intros Hc. rewrite while_unfold. now rewrite (bind_Return _ _ _ _ _ Hc).
Qed.

Lemma while_continue {X} (fuel : nat) (cond : X -> M bool) (body : X -> M X)
      (x x' : X) (w w' w1 : world) :
  cond x w = (Return true, w') ->
  body x w' = (Return x', w1) ->
  while (S fuel) cond body x w = while fuel cond body x' w1.
Proof.
  intros Hc Hb. rewrite while_unfold. rewrite (bind_Return _ _ _ _ _ Hc).
  now rewrite (bind_Return _ _ _ _ _ Hb).
Qed.

Lemma while_body_raises {X} (fuel : nat) (cond : X -> M bool) (body : X -> M X)
      (x : X) (e : exn) (w w' w1 : world) :
  cond x w = (Return true, w') ->
  body x w' = (Raised e, w1) ->
  while (S fuel) cond body x w = (Raised e, w1).
Proof.
  intros Hc Hb. rewrite while_unfold. rewrite (bind_Return _ _ _ _ _ Hc).
  now rewrite (bind_Raised _ _ _ _ _ Hb).
Qed.

Lemma timebase_cond_run (timebase : Z) (t : Q) (w : world) (st : Z) :
  dict_get (status (self w)) "getTimebase" = Some st ->
  timebase_cond (timebase, t) w
  = (Return (negb (st =? 0) && (timebase <? 100)), w).
Proof.
  intros H. unfold timebase_cond.
  rewrite (bind_Return _ _ w w st) by (apply getTimebase_status_run, H).
  reflexivity.
Qed.

(** A foreign call that returns, followed by storing its status. *)
Lemma foreign_then_store sdk (c : call) (key : string) (w : world) :
  PICOSDK_AVAILABLE sdk = true ->
  r_raises (respond sdk (trace w) c) = false ->
  exists w',
    (r <- foreign sdk c ;; status_store key (r_status r) ;; ret r) w
    = (Return (respond sdk (trace w) c), w') /\
    same_session (self w) (self w') /\
    trace w' = trace w ++ [c] /\
    dict_get (status (self w')) key = Some (r_status (respond sdk (trace w) c)).
Proof.
  intros Ha Hr.
  destruct (status_store_run key (r_status (respond sdk (trace w) c))
              {| self := self w; trace := trace w ++ [c] |})
    as (w' & Hstore & Hsame & Htrace & Hst).
  exists w'. split; [|split; [exact Hsame | split; [exact Htrace | exact Hst]]].
  unfold bind at 1. rewrite (foreign_run sdk c w Ha), Hr.
  unfold bind. rewrite Hstore. reflexivity.
Qed.

Lemma foreign_raises sdk (c : call) (w : world) :
  PICOSDK_AVAILABLE sdk = true ->
  r_raises (respond sdk (trace w) c) = true ->
  foreign sdk c w
  = (Raised ForeignError, {| self := self w; trace := trace w ++ [c] |}).
Proof. intros Ha Hr. now rewrite (foreign_run sdk c w Ha), Hr. Qed.

Lemma foreign_returns sdk (c : call) (w : world) :
  PICOSDK_AVAILABLE sdk = true ->
  r_raises (respond sdk (trace w) c) = false ->
  foreign sdk c w
  = (Return (respond sdk (trace w) c),
     {| self := self w; trace := trace w ++ [c] |}).
Proof. intros Ha Hr. now rewrite (foreign_run sdk c w Ha), Hr. Qed.

Section Negotiation.
Variable sdk : picosdk.
Variable h : option Z.
Variable total_samples : Z.
Variable w0 : world.
Hypothesis available : PICOSDK_AVAILABLE sdk = true.

Let calls := attempt_calls h total_samples.
Let reply_of := attempt_reply sdk (trace w0) h total_samples.
Let rejected (i : nat) : Prop :=
  r_raises (reply_of i) = false /\ r_status (reply_of i) <> 0.

(** One more request after timebase [j]. *)
Lemma timebase_body_run (j : nat) (t : Q) (wj : world) :
  trace wj = trace w0 ++ calls (S j) ->
  exists w1,
    timebase_body sdk h total_samples (Z.of_nat j, t) wj
    = (if r_raises (reply_of (S j)) then Raised ForeignError
       else Return (Z.of_nat (S j), r_interval (reply_of (S j))), w1) /\
    same_session (self wj) (self w1) /\
    trace w1 = trace w0 ++ calls (S (S j)) /\
    (r_raises (reply_of (S j)) = false ->
     dict_get (status (self w1)) "getTimebase"
     = Some (r_status (reply_of (S j)))).
Proof.
  intros Htrace.
  unfold timebase_body.
  replace (Z.of_nat j + 1) with (Z.of_nat (S j)) by lia.
  set (c := ps5000aGetTimebase2 h (Z.of_nat (S j)) total_samples 0).
  assert (Hreply : respond sdk (trace wj) c = reply_of (S j)).
  { rewrite Htrace. reflexivity. }
  assert (Hcalls : (trace wj ++ [c]) = trace w0 ++ calls (S (S j))).
  { rewrite Htrace, <- app_assoc. unfold calls.
    now rewrite (attempt_calls_S _ _ (S j)). }
  destruct (r_raises (reply_of (S j))) eqn:Hr.
  - exists {| self := self wj; trace := trace wj ++ [c] |}.
    split; [|split; [apply same_session_refl | split; [exact Hcalls | discriminate]]].
    apply bind_Raised. apply foreign_raises; [exact available | now rewrite Hreply].
  - destruct (status_store_run "getTimebase" (r_status (reply_of (S j)))
                {| self := self wj; trace := trace wj ++ [c] |})
      as (w1 & Hstore & Hsame & Htrace1 & Hst).
    exists w1.
    split; [|split; [exact Hsame | split; [now rewrite Htrace1 | intros _; exact Hst]]].
    rewrite (bind_Return _ _ _ _ _
               (foreign_returns sdk c wj available
                  ltac:(now rewrite Hreply))).
    rewrite Hreply.
    now rewrite (bind_Return _ _ _ _ _ Hstore).
Qed.

(** The loop from timebase [j] on, [n] increments away from 100. *)
Lemma timebase_loop (n : nat) :
  forall (j fuel : nat) (wj : world),
    (j + n = 100)%nat -> (n <= fuel)%nat ->
    trace wj = trace w0 ++ calls (S j) ->
    dict_get (status (self wj)) "getTimebase" = Some (r_status (reply_of j)) ->
    r_raises (reply_of j) = false ->
    same_session (self w0) (self wj) ->
    (forall i, (i < j)%nat -> rejected i) ->
    exists (k : nat) (w' : world),
      (j <= k <= 100)%nat /\
      trace w' = trace w0 ++ calls (S k) /\
      same_session (self w0) (self w') /\
      (forall i, (i < k)%nat -> rejected i) /\
      while fuel timebase_cond (timebase_body sdk h total_samples)
            (Z.of_nat j, r_interval (reply_of j)) wj
      = (if r_raises (reply_of k) then Raised ForeignError
         else Return (Z.of_nat k, r_interval (reply_of k)), w') /\
      (r_raises (reply_of k) = false ->
       (r_status (reply_of k) = 0 \/ k = 100%nat) /\
       dict_get (status (self w')) "getTimebase"
       = Some (r_status (reply_of k))).
Proof.
  induction n as [|n IH]; intros j fuel wj Hj Hfuel Htrace Hst Hnr Hsame Hrej.
  - (* timebase = 100: the loop stops whatever the status *)
    assert (j = 100%nat) by lia. subst j.
    exists 100%nat, wj.
    split; [lia|]. split; [exact Htrace|]. split; [exact Hsame|].
    split; [exact Hrej|]. split.
    + rewrite Hnr. apply while_stop.
      rewrite (timebase_cond_run _ _ _ _ Hst).
      change (Z.of_nat 100 <? 100) with false. now rewrite andb_false_r.
    + intros _. split; [right; reflexivity | exact Hst].
  - destruct (Z.eqb_spec (r_status (reply_of j)) 0) as [Hok|Hbad].
    + (* accepted at [j] *)
      exists j, wj.
      split; [lia|]. split; [exact Htrace|]. split; [exact Hsame|].
      split; [exact Hrej|]. split.
      * rewrite Hnr. apply while_stop.
        rewrite (timebase_cond_run _ _ _ _ Hst). now rewrite Hok.
      * intros _. split; [left; exact Hok | exact Hst].
    + (* rejected at [j] < 100: one more request *)
      assert (Hrej' : forall i, (i < S j)%nat -> rejected i).
      { intros i Hi. destruct (Nat.eq_dec i j) as [->|Hne].
        - split; assumption.
        - apply Hrej. lia. }
      assert (Hcond : timebase_cond (Z.of_nat j, r_interval (reply_of j)) wj
                      = (Return true, wj)).
      { rewrite (timebase_cond_run _ _ _ _ Hst).
        replace (Z.of_nat j <? 100) with true by (symmetry; apply Z.ltb_lt; lia).
        destruct (Z.eqb_spec (r_status (reply_of j)) 0);
          [contradiction | reflexivity]. }
      destruct fuel as [|fuel]; [lia|].
      destruct (timebase_body_run j (r_interval (reply_of j)) wj Htrace)
        as (w1 & Hbody & Hsame1 & Htrace1 & Hst1).
      destruct (r_raises (reply_of (S j))) eqn:Hr.
      * (* the request raised *)
        exists (S j), w1.
        split; [lia|]. split; [exact Htrace1|].
        split; [eapply same_session_trans; eassumption|].
        split; [exact Hrej'|]. split.
        -- rewrite Hr. eapply while_body_raises; eassumption.
        -- rewrite Hr. discriminate.
      * destruct (IH (S j) fuel w1) as (k & w' & Hk & Htr & Hs & Hr' & Hout);
          try assumption; try lia.
        { now apply Hst1. }
        { eapply same_session_trans; eassumption. }
        exists k, w'.
        split; [lia|]. split; [exact Htr|]. split; [exact Hs|].
        split; [exact Hr'|].
        now rewrite (while_continue _ _ _ _ _ _ _ _ Hcond Hbody).
Qed.

(** The whole negotiation: requests at timebase 0, 1, ..., [k]. *)
Lemma negotiate_timebase_run (fuel : nat) :
  (100 <= fuel)%nat ->
  exists (k : nat) (w' : world),
    (k <= 100)%nat /\
    trace w' = trace w0 ++ calls (S k) /\
    same_session (self w0) (self w') /\
    (forall i, (i < k)%nat -> rejected i) /\
    negotiate_timebase sdk fuel h total_samples w0
    = (if r_raises (reply_of k) then Raised ForeignError
       else if r_status (reply_of k) =? 0
            then Return (Z.of_nat k, r_interval (reply_of k))
            else Raised PicoSDKCtypesError, w') /\
    (r_raises (reply_of k) = false -> r_status (reply_of k) <> 0 ->
     k = 100%nat).
Proof.
  intros Hfuel.
  set (c := ps5000aGetTimebase2 h 0 total_samples 0).
  assert (Hreply : respond sdk (trace w0) c = reply_of 0).
  { unfold reply_of, attempt_reply, attempt_calls. simpl.
    now rewrite app_nil_r. }
  assert (Hcalls : trace w0 ++ [c] = trace w0 ++ calls 1) by reflexivity.
  unfold negotiate_timebase. cbv zeta. fold c.
  destruct (r_raises (reply_of 0)) eqn:Hr.
  - exists 0%nat, {| self := self w0; trace := trace w0 ++ [c] |}.
    split; [lia|]. split; [exact Hcalls|]. split; [apply same_session_refl|].
    split; [intros i Hi; lia|]. split.
    + rewrite Hr. apply bind_Raised.
      apply foreign_raises; [exact available | now rewrite Hreply].
    + rewrite Hr. discriminate.
  - destruct (status_store_run "getTimebase" (r_status (reply_of 0))
                {| self := self w0; trace := trace w0 ++ [c] |})
      as (w1 & Hstore & Hsame1 & Htrace1 & Hst1).
    destruct (timebase_loop 100 0 fuel w1 eq_refl Hfuel)
      as (k & w' & Hk & Htr & Hs & Hrj & Hout & Hfin).
    { rewrite Htrace1. exact Hcalls. }
    { exact Hst1. }
    { exact Hr. }
    { exact Hsame1. }
    { intros i Hi; lia. }
    exists k, w'.
    split; [lia|]. split; [exact Htr|]. split; [exact Hs|].
    split; [exact Hrj|].
    rewrite (bind_Return _ _ _ _ _
               (foreign_returns sdk c w0 available
                  ltac:(now rewrite Hreply))).
    rewrite Hreply.
    rewrite (bind_Return _ _ _ _ _ Hstore).
    change (Z.of_nat 0) with 0 in Hout.
    destruct (r_raises (reply_of k)) eqn:Hrk.
    + split; [|discriminate].
      now rewrite (bind_Raised _ _ _ _ _ Hout).
    + destruct (Hfin eq_refl) as [Hacc Hstk].
      rewrite (bind_Return _ _ _ _ _ Hout).
      rewrite (bind_Return _ _ _ _ _ (getTimebase_status_run _ _ Hstk)).
      split.
      * unfold assert_pico_ok.
        destruct (r_status (reply_of k) =? 0); reflexivity.
      * intros _ Hne. destruct Hacc; [contradiction | assumption].
Qed.
End Negotiation.

Lemma try_except_Raised {A} (body : M A) (handler : exn -> M A)
      (w w' : world) (e : exn) :
  body w = (Raised e, w') -> try_except body handler w = handler e w'.
Proof. unfold try_except; intros ->; reflexivity. Qed.


(** With a driver that rejects all 101 timebases the capture makes 101
    requests; with one that accepts timebase 100 only, the capture succeeds
    at request 101. *)
Lemma timebase_request_101 :
  ~ (timebase_attempts
       (trace (snd (capture_block rejecting_sdk 100 1000 1000
                                  (connected_world []))))
     <= 100)%nat /\
  fst (capture_block rejecting_sdk 100 1000 1000 (connected_world []))
  = Return None /\
  timebase_attempts
    (trace (snd (capture_block timebase_100_sdk 100 1000 1000
                               (connected_world []))))
  = 101%nat /\
  fst (capture_block timebase_100_sdk 100 1000 1000 (connected_world []))
  = Return (Some []).
Proof.
  assert (E : timebase_attempts
                (trace (snd (capture_block rejecting_sdk 100 1000 1000
                                           (connected_world []))))
              = 101%nat) by (vm_compute; reflexivity).
  split; [rewrite E; lia|].
  split; [vm_compute; reflexivity|].
  split; vm_compute; reflexivity.
Qed.

(** C3 (as the code has it).  The negotiation requests timebase 0 and,
    after each rejection, the next index, up to index 100: the requests are
    exactly the indices 0, 1, ..., k for some k <= 100, at most 101 in all;
    every request before the last was rejected; it returns the index and
    interval of the last request when that one is accepted, and raises
    otherwise, a rejected last request being number 101.  When the driver
    rejects every timebase, [capture_block] returns [None]. *)
Theorem timebase_negotiation_101_requests (sdk : picosdk) (fuel : nat) :
  (100 <= fuel)%nat ->
  (forall h total_samples w,
      PICOSDK_AVAILABLE sdk = true ->
      exists (k : nat) (w' : world),
        (k <= 100)%nat /\
        trace w' = trace w ++ attempt_calls h total_samples (S k) /\
        (timebase_attempts (attempt_calls h total_samples (S k)) <= 101)%nat /\
        (forall i, (i < k)%nat ->
                   r_raises (attempt_reply sdk (trace w) h total_samples i)
                   = false /\
                   r_status (attempt_reply sdk (trace w) h total_samples i)
                   <> 0) /\
        negotiate_timebase sdk fuel h total_samples w
        = (let r := attempt_reply sdk (trace w) h total_samples k in
           if r_raises r then Raised ForeignError
           else if r_status r =? 0 then Return (Z.of_nat k, r_interval r)
                else Raised PicoSDKCtypesError, w') /\
        (r_raises (attempt_reply sdk (trace w) h total_samples k) = false ->
         r_status (attempt_reply sdk (trace w) h total_samples k) <> 0 ->
         k = 100%nat)) /\
  ((forall history h timebase n seg,
       r_status (respond sdk history (ps5000aGetTimebase2 h timebase n seg))
       <> 0) ->
   forall pre_trigger post_trigger w,
     fst (capture_block sdk fuel pre_trigger post_trigger w) = Return None).
Proof.
  intros Hfuel. split.
  - intros h total_samples w Ha.
    destruct (negotiate_timebase_run sdk h total_samples w Ha fuel Hfuel)
      as (k & w' & Hk & Htr & _ & Hrej & Hrun & Hlast).
    exists k, w'.
    split; [exact Hk|]. split; [exact Htr|].
    split; [rewrite attempt_calls_length; lia|].
    split; [exact Hrej|]. split; [exact Hrun | exact Hlast].
  - intros Hall pre_trigger post_trigger w.
    unfold capture_block.
    unfold bind at 1. unfold get_self at 1. cbn iota.
    destruct (is_connected (self w)); cbn [negb]; [|reflexivity].
    enough (Hbody : exists e w',
               (let total_samples := pre_trigger + post_trigger in
                picosdk_name sdk ;;
                buffers <- setup_buffers sdk (chandle (self w)) total_samples
                             (dict_items (channel_configs (self w))) ;;
                '(timebase, time_interval_ns) <-
                  negotiate_timebase sdk fuel (chandle (self w)) total_samples ;;
                r <- foreign sdk (ps5000aRunBlock (chandle (self w)) pre_trigger
                                    post_trigger timebase 0) ;;
                status_store "runBlock" (r_status r) ;;
                assert_pico_ok (r_status r) ;;
                wait_ready sdk fuel (chandle (self w)) ;;
                r <- foreign sdk (ps5000aGetValues (chandle (self w)) 0
                                    total_samples 1 PS5000A_RATIO_MODE_NONE 0) ;;
                status_store "getValues" (r_status r) ;;
                assert_pico_ok (r_status r) ;;
                s' <- get_self ;;
                result <- build_result sdk s' total_samples time_interval_ns
                            (r_buffer r) buffers ;;
                ret (Some result)) w = (Raised e, w')).
    { destruct Hbody as (e & w' & Hbody).
      now rewrite (try_except_Raised _ _ _ _ _ Hbody). }
    cbv zeta.
    destruct (PICOSDK_AVAILABLE sdk) eqn:Ha.
    + rewrite (bind_Return _ _ _ _ _ (picosdk_name_run sdk w Ha)).
      destruct (setup_buffers sdk (chandle (self w)) (pre_trigger + post_trigger)
                  (dict_items (channel_configs (self w))) w)
        as [[buffers|e|] w1] eqn:E1.
      * rewrite (bind_Return _ _ _ _ _ E1).
        destruct (negotiate_timebase_run sdk (chandle (self w))
                    (pre_trigger + post_trigger) w1 Ha fuel Hfuel)
          as (k & w2 & _ & _ & _ & _ & Hrun & _).
        destruct (r_raises _) in Hrun.
        -- exists ForeignError, w2. now rewrite (bind_Raised _ _ _ _ _ Hrun).
        -- destruct (Z.eqb_spec
                       (r_status (attempt_reply sdk (trace w1) (chandle (self w))
                                    (pre_trigger + post_trigger) k)) 0)
             as [Hz|Hnz].
           ++ exfalso. revert Hz. apply Hall.
           ++ exists PicoSDKCtypesError, w2.
              now rewrite (bind_Raised _ _ _ _ _ Hrun).
      * exists e, w1. now rewrite (bind_Raised _ _ _ _ _ E1).
      * exfalso.
        destruct (keeps_setup_buffers sdk (fun _ => True) (chandle (self w))
                    (pre_trigger + post_trigger)
                    (dict_items (channel_configs (self w))) w I) as [_ Hf].
        rewrite E1 in Hf. now apply Hf.
    + exists NameError, w. apply bind_Raised.
      unfold picosdk_name. now rewrite Ha.
Qed.

Lemma timebase_negotiation_101_requests_witness :
  (exists (k : nat) (w' : world),
      (k <= 100)%nat /\
      negotiate_timebase slow_sdk 100 (Some 16384) 2000 init_world
      = (Return (Z.of_nat k, 2%Q), w')) /\
  fst (capture_block rejecting_sdk 100 1000 1000 (connected_world []))
  = Return None.
Proof.
  destruct (timebase_negotiation_101_requests slow_sdk 100 (le_n 100))
    as [Hneg _].
  destruct (timebase_negotiation_101_requests rejecting_sdk 100 (le_n 100))
    as [_ Hcap].
  split.
  - destruct (Hneg (Some 16384) 2000 init_world eq_refl)
      as (k & w' & Hk & _ & _ & Hrej & Hrun & Hlast).
    exists k, w'. split; [exact Hk|].
    rewrite Hrun.
    destruct k as [|[|k]].
    + exfalso. assert (E : 0%nat = 100%nat); [|discriminate E].
      apply Hlast; [reflexivity | simpl; discriminate].
    + reflexivity.
    + exfalso. destruct (Hrej 1%nat) as [_ Hbad]; [lia|].
      apply Hbad. reflexivity.
  - apply Hcap. intros history h timebase n seg. simpl. discriminate.
Defined.

(* ------------------------------------------------------------------ *)
(** ** capture_block with a cooperative driver                          *)
(* ------------------------------------------------------------------ *)






(** *** The buffers of the enabled channels *)

Lemma dict_mem_set {V} (d : dict V) (k k' : string) (v : V) :
  dict_mem (dict_set d k v) k' = (String.eqb k k' || dict_mem d k')%bool.
Proof.
  unfold dict_mem. destruct (String.eqb_spec k k') as [->|Hne].
  - now rewrite dict_get_set_same.
  - now rewrite dict_get_set_other.
Qed.

Lemma enabled_buffers_keeps items : forall acc name,
  dict_mem acc name = true -> dict_mem (enabled_buffers items acc) name = true.
Proof.
  induction items as [|[n c] items IH]; intros acc name H; simpl; [exact H|].
  apply IH. destruct (enabled c); [|exact H].
  rewrite dict_mem_set, H. apply orb_true_r.
Qed.





Lemma In_fst_dict_mem {V} (d : dict V) (k : string) :
  In k (map fst d) -> dict_mem d k = true.
Proof.
  unfold dict_mem. induction d as [|[k0 v0] r IH]; simpl; [intros []|].
  intros [->|H].
  - now rewrite String.eqb_refl.
  - destruct (String.eqb k0 k); [reflexivity | now apply IH].
Qed.

Lemma dict_mem_In_fst {V} (d : dict V) (k : string) :
  dict_mem d k = true -> In k (map fst d).
Proof.
  unfold dict_mem. induction d as [|[k0 v0] r IH]; simpl; [discriminate|].
  destruct (String.eqb_spec k0 k) as [->|Hne]; [now left|].
  intros H. right. now apply IH.
Qed.

(** *** The result dictionary *)



(** *** The time axis *)








(** *** The example drivers are cooperative *)

Lemma accepting_sdk_cooperative (t : Q) : cooperative (accepting_sdk t) 0 1.
Proof.
  constructor; try reflexivity.
  - lia.
  - intros history h. exists 0%nat. split; [lia | discriminate].
  - intros l r m. eexists. reflexivity.
Qed.







(* ------------------------------------------------------------------ *)
(** ** What the methods leave alone                                     *)
(* ------------------------------------------------------------------ *)

Section Unchanged.
Variable sdk : picosdk.
Context {T : Type}.
Variable proj : PicoScopeManager -> T.

Lemma unchanged_ret {A} (a : A) : unchanged proj (ret a).
Proof. intros w; reflexivity. Qed.

Lemma unchanged_raise {A} (e : exn) : unchanged proj (@raise A e).
Proof. intros w; reflexivity. Qed.

Lemma unchanged_lift {A} (r : pyresult A) : unchanged proj (lift r).
Proof. destruct r; intros w; reflexivity. Qed.

Lemma unchanged_get_self : unchanged proj get_self.
Proof. intros w; reflexivity. Qed.

Lemma unchanged_bind {A B} (m : M A) (k : A -> M B) :
  unchanged proj m -> (forall a, unchanged proj (k a)) ->
  unchanged proj (bind m k).
Proof.
  intros Hm Hk w. specialize (Hm w). unfold bind.
  destruct (m w) as [[a|e|] w1]; simpl in *; try exact Hm.
  rewrite (Hk a w1). exact Hm.
Qed.

Lemma unchanged_try_except {A} (body : M A) (handler : exn -> M A) :
  unchanged proj body -> (forall e, unchanged proj (handler e)) ->
  unchanged proj (try_except body handler).
Proof.
  intros Hb Hh w. specialize (Hb w). unfold try_except.
  destruct (body w) as [[a|e|] w1]; simpl in *; try exact Hb.
  rewrite (Hh e w1). exact Hb.
Qed.

Lemma unchanged_while {X} (fuel : nat) (cond : X -> M bool) (body : X -> M X) :
  (forall x, unchanged proj (cond x)) -> (forall x, unchanged proj (body x)) ->
  forall x, unchanged proj (while fuel cond body x).
Proof.
  intros Hc Hb. induction fuel as [|fuel IH]; intros x;
    rewrite while_unfold; apply unchanged_bind; try apply Hc;
    intros [|]; try apply unchanged_ret.
  - intros w; reflexivity.
  - apply unchanged_bind; [apply Hb | exact IH].
Qed.

Lemma unchanged_for_each {X S} (body : X -> S -> M S) (l : list X) :
  (forall x a, unchanged proj (body x a)) ->
  forall acc, unchanged proj (for_each l body acc).
Proof.
  intros Hb. induction l as [|x r IH]; intros acc; simpl.
  - apply unchanged_ret.
  - apply unchanged_bind; [apply Hb | exact IH].
Qed.

Lemma unchanged_update_self (f : PicoScopeManager -> PicoScopeManager) :
  (forall s, proj (f s) = proj s) -> unchanged proj (update_self f).
Proof. intros Hf w. apply Hf. Qed.

Lemma unchanged_assert_pico_ok st : unchanged proj (assert_pico_ok st).
Proof.
  unfold assert_pico_ok. destruct (st =? 0);
    [apply unchanged_ret | apply unchanged_raise].
Qed.

Lemma unchanged_picosdk_name : unchanged proj (picosdk_name sdk).
Proof.
  unfold picosdk_name. destruct (PICOSDK_AVAILABLE sdk);
    [apply unchanged_ret | apply unchanged_raise].
Qed.

Lemma unchanged_foreign (c : call) : unchanged proj (foreign sdk c).
Proof.
  unfold foreign. apply unchanged_bind; [apply unchanged_picosdk_name|].
  intros _ w. destruct (r_raises (respond sdk (trace w) c)); reflexivity.
Qed.

(** [status] is no part of [proj]. *)
Hypothesis proj_status : forall s v, proj (with_status s v) = proj s.

Lemma unchanged_status_store key st : unchanged proj (status_store key st).
Proof. intros w. apply proj_status. Qed.

Lemma unchanged_getTimebase_status : unchanged proj getTimebase_status.
Proof.
  unfold getTimebase_status. apply unchanged_bind; [apply unchanged_get_self|].
  intros s. apply unchanged_lift.
Qed.
End Unchanged.

(** One step of a syntax-directed proof of [unchanged]. *)
Ltac unchanged_step :=
  cbv zeta;
  lazymatch goal with
  | |- unchanged _ (bind _ _) => apply unchanged_bind; [|intros ?]
  | |- unchanged _ (try_except _ _) => apply unchanged_try_except; [|intros ?]
  | |- unchanged _ (ret _) => apply unchanged_ret
  | |- unchanged _ (raise _) => apply unchanged_raise
  | |- unchanged _ (lift _) => apply unchanged_lift
  | |- unchanged _ (foreign _ _) => apply unchanged_foreign
  | |- unchanged _ (picosdk_name _) => apply unchanged_picosdk_name
  | |- unchanged _ get_self => apply unchanged_get_self
  | |- unchanged _ getTimebase_status =>
      apply unchanged_getTimebase_status; intros; reflexivity
  | |- unchanged _ (status_store _ _) =>
      apply unchanged_status_store; intros; reflexivity
  | |- unchanged _ (assert_pico_ok _) => apply unchanged_assert_pico_ok
  | |- unchanged _ (update_self _) =>
      apply unchanged_update_self; intros; reflexivity
  | |- unchanged _ (set_chandle _) =>
      apply unchanged_update_self; intros; reflexivity
  | |- unchanged _ (set_device_info _) =>
      apply unchanged_update_self; intros; reflexivity
  | |- unchanged _ (set_channel_configs _) =>
      apply unchanged_update_self; intros; reflexivity
  | |- unchanged _ (set_status _) =>
      apply unchanged_update_self; intros; reflexivity
  | |- unchanged _ (set_current_device _) =>
      apply unchanged_update_self; intros; reflexivity
  | |- unchanged _ (if ?b then _ else _) => destruct b
  | |- unchanged _ (match ?x with _ => _ end) => destruct x
  end.

Lemma unchanged_negotiate_timebase sdk fuel h total_samples :
  unchanged session_of (negotiate_timebase sdk fuel h total_samples).
Proof.
  unfold negotiate_timebase. repeat unchanged_step.
  apply unchanged_while.
  - intros [timebase t]. unfold timebase_cond. repeat unchanged_step.
  - intros [timebase t]. unfold timebase_body. repeat unchanged_step.
Qed.

Lemma unchanged_wait_ready sdk fuel h :
  unchanged session_of (wait_ready sdk fuel h).
Proof.
  unfold wait_ready. cbv zeta. apply unchanged_while.
  - intros ready. apply unchanged_ret.
  - intros ready. unfold ready_body. repeat unchanged_step.
Qed.

Lemma unchanged_setup_buffers sdk h total_samples items :
  unchanged session_of (setup_buffers sdk h total_samples items).
Proof.
  unfold setup_buffers. apply unchanged_for_each.
  intros [ch_name ch_config] buffers. unfold buffer_body.
  repeat unchanged_step.
Qed.

Lemma unchanged_build_result sdk s total_samples t data buffers :
  unchanged session_of (build_result sdk s total_samples t data buffers).
Proof.
  unfold build_result. apply unchanged_for_each.
  intros [ch_name buffer] result. unfold result_body.
  repeat unchanged_step.
Qed.

(** X1.  Whatever the driver answers and however the call ends (also when
    the busy wait never ends), [set_trigger] and [capture_block] change
    nothing of the manager but its [status] dictionary: the stored
    configurations, the handle, the device information and
    [current_device] are what they were. *)
Theorem trigger_and_capture_keep_session
        (sdk : picosdk) (config : TriggerConfig) (fuel : nat)
        (pre_trigger post_trigger : Z) (w : world) :
  same_session (self w) (self (snd (set_trigger sdk config w))) /\
  same_session (self w)
               (self (snd (capture_block sdk fuel pre_trigger post_trigger w))).
Proof.
  assert (Hsame : forall s s', session_of s' = session_of s -> same_session s s').
  { unfold session_of, same_session. intros s s' E.
    injection E as -> -> -> ->. repeat split. }
  split; apply Hsame.
  - revert w. change (unchanged session_of (set_trigger sdk config)).
    unfold set_trigger. repeat unchanged_step.
  - revert w.
    change (unchanged session_of
                      (capture_block sdk fuel pre_trigger post_trigger)).
    unfold capture_block.
    apply unchanged_bind; [apply unchanged_get_self|]. intros s.
    destruct (negb (is_connected s)); [apply unchanged_ret|].
    apply unchanged_try_except; [|intros e; apply unchanged_ret].
    cbv zeta.
    apply unchanged_bind; [apply unchanged_picosdk_name|]. intros _.
    apply unchanged_bind; [apply unchanged_setup_buffers|]. intros buffers.
    apply unchanged_bind; [apply unchanged_negotiate_timebase|].
    intros [timebase t].
    apply unchanged_bind; [apply unchanged_foreign|]. intros r.
    apply unchanged_bind;
      [apply unchanged_status_store; intros; reflexivity|]. intros _.
    apply unchanged_bind; [apply unchanged_assert_pico_ok|]. intros _.
    apply unchanged_bind; [apply unchanged_wait_ready|]. intros _.
    apply unchanged_bind; [apply unchanged_foreign|]. intros r'.
    apply unchanged_bind;
      [apply unchanged_status_store; intros; reflexivity|]. intros _.
    apply unchanged_bind; [apply unchanged_assert_pico_ok|]. intros _.
    apply unchanged_bind; [apply unchanged_get_self|]. intros s'.
    apply unchanged_bind; [apply unchanged_build_result|]. intros result.
    apply unchanged_ret.
Qed.

(* ------------------------------------------------------------------ *)
(** ** Following a run step by step                                     *)
(* ------------------------------------------------------------------ *)

Lemma wp_ret {A} (a : A) Q w : Q (Return a) w -> wp (ret a) Q w.
Proof. exact (fun H => H). Qed.

Lemma wp_raise {A} (e : exn) (Q : outcome A -> world -> Prop) w :
  Q (Raised e) w -> wp (raise e) Q w.
Proof. exact (fun H => H). Qed.

Lemma wp_lift {A} (r : pyresult A) (Q : outcome A -> world -> Prop) w :
  (forall a, r = Ok a -> Q (Return a) w) ->
  (forall e, r = Raise e -> Q (Raised e) w) ->
  wp (lift r) Q w.
Proof. destruct r; intros H1 H2; [now apply H1 | now apply H2]. Qed.

Lemma wp_get_self (Q : outcome PicoScopeManager -> world -> Prop) w :
  Q (Return (self w)) w -> wp get_self Q w.
Proof. exact (fun H => H). Qed.

Lemma wp_bind {A B} (m : M A) (k : A -> M B) Q w :
  wp m (fun o w1 =>
          match o with
          | Return a => wp (k a) Q w1
          | Raised e => Q (Raised e) w1
          | OutOfFuel => Q OutOfFuel w1
          end) w ->
  wp (bind m k) Q w.
Proof. unfold wp, bind. destruct (m w) as [[a|e|] w1]; exact (fun H => H). Qed.

Lemma wp_try_except {A} (body : M A) (handler : exn -> M A) Q w :
  wp body (fun o w1 =>
             match o with
             | Raised e => wp (handler e) Q w1
             | Return a => Q (Return a) w1
             | OutOfFuel => Q OutOfFuel w1
             end) w ->
  wp (try_except body handler) Q w.
Proof.
  unfold wp, try_except. destruct (body w) as [[a|e|] w1]; exact (fun H => H).
Qed.

Lemma wp_update_self (f : PicoScopeManager -> PicoScopeManager)
      (Q : outcome unit -> world -> Prop) w :
  Q (Return tt) {| self := f (self w); trace := trace w |} ->
  wp (update_self f) Q w.
Proof. exact (fun H => H). Qed.

Lemma wp_status_store key st (Q : outcome unit -> world -> Prop) w :
  Q (Return tt) (stored w key st) -> wp (status_store key st) Q w.
Proof. exact (fun H => H). Qed.

Lemma wp_assert_pico_ok st (Q : outcome unit -> world -> Prop) w :
  (st = 0 -> Q (Return tt) w) ->
  (st <> 0 -> Q (Raised PicoSDKCtypesError) w) ->
  wp (assert_pico_ok st) Q w.
Proof.
  unfold wp, assert_pico_ok. destruct (Z.eqb_spec st 0); intros H1 H2;
    [now apply H1 | now apply H2].
Qed.

Lemma wp_picosdk_name sdk (Q : outcome unit -> world -> Prop) w :
  PICOSDK_AVAILABLE sdk = true -> Q (Return tt) w -> wp (picosdk_name sdk) Q w.
Proof. intros Ha H. unfold wp. rewrite (picosdk_name_run sdk w Ha). exact H. Qed.

Lemma wp_foreign sdk (c : call) (Q : outcome reply -> world -> Prop) w :
  PICOSDK_AVAILABLE sdk = true ->
  (r_raises (respond sdk (trace w) c) = true ->
   Q (Raised ForeignError) (called w c)) ->
  (r_raises (respond sdk (trace w) c) = false ->
   Q (Return (respond sdk (trace w) c)) (called w c)) ->
  wp (foreign sdk c) Q w.
Proof.
  intros Ha H1 H2. unfold wp. rewrite (foreign_run sdk c w Ha).
  destruct (r_raises (respond sdk (trace w) c)); [now apply H1 | now apply H2].
Qed.

(** Reading the fields of the worlds a run goes through. *)
Ltac wp_fields :=
  cbn [self trace current_device device_info channel_configs chandle status
       called stored with_status].

(** One step along a run of a method with the SDK available ([Ha]). *)
Ltac wp_step Ha :=
  cbv zeta;
  lazymatch goal with
  | |- wp (bind _ _) _ _ => apply wp_bind
  | |- wp (try_except _ _) _ _ => apply wp_try_except
  | |- wp (ret _) _ _ => apply wp_ret
  | |- wp (raise _) _ _ => apply wp_raise
  | |- wp (lift _) _ _ => apply wp_lift; intros ? ?
  | |- wp get_self _ _ => apply wp_get_self
  | |- wp (status_store _ _) _ _ => apply wp_status_store
  | |- wp (assert_pico_ok _) _ _ => apply wp_assert_pico_ok; intros ?
  | |- wp (picosdk_name _) _ _ => apply (wp_picosdk_name _ _ _ Ha)
  | |- wp (foreign _ _) _ _ => apply (wp_foreign _ _ _ _ Ha); intros ?
  | |- wp (set_chandle _) _ _ => apply wp_update_self
  | |- wp (set_device_info _) _ _ => apply wp_update_self
  | |- wp (set_channel_configs _) _ _ => apply wp_update_self
  | |- wp (set_status _) _ _ => apply wp_update_self
  | |- wp (set_current_device _) _ _ => apply wp_update_self
  | |- wp (if ?b then _ else _) _ _ => destruct b eqn:?
  | |- wp (match ?x with _ => _ end) _ _ => destruct x eqn:?
  end;
  wp_fields.

(* ------------------------------------------------------------------ *)
(** ** connect                                                          *)
(* ------------------------------------------------------------------ *)

(** X2.  [connect] never raises and never touches [current_device] or the
    stored configurations.  It returns [True] with a handle and a
    [DeviceInfo] for that handle (model "PS5000A", four channels, ADC limits
    32767 and -32767), or [False]; after [False] the manager has no handle
    and no device information, whatever it had before (unless the PicoSDK
    failed to import, in which case nothing was touched). *)
Theorem connect_all_or_nothing
        (sdk : picosdk) (device_index : Z) (serial : option string) (w : world) :
  let o := fst (connect sdk device_index serial w) in
  let w' := snd (connect sdk device_index serial w) in
  current_device (self w') = current_device (self w) /\
  channel_configs (self w') = channel_configs (self w) /\
  ((o = Return true /\
    exists h variant batch_serial,
      chandle (self w') = Some h /\
      device_info (self w') = Some (connected_info h variant batch_serial))
   \/ (o = Return false /\ PICOSDK_AVAILABLE sdk = false /\ w' = w)
   \/ (o = Return false /\ PICOSDK_AVAILABLE sdk = true /\
       chandle (self w') = None /\ device_info (self w') = None)).
Proof.
  cbv zeta.
  change (wp (connect sdk device_index serial)
             (fun o w' =>
                current_device (self w') = current_device (self w) /\
                channel_configs (self w') = channel_configs (self w) /\
                ((o = Return true /\
                  exists h variant batch_serial,
                    chandle (self w') = Some h /\
                    device_info (self w')
                    = Some (connected_info h variant batch_serial))
                 \/ (o = Return false /\ PICOSDK_AVAILABLE sdk = false /\ w' = w)
                 \/ (o = Return false /\ PICOSDK_AVAILABLE sdk = true /\
                     chandle (self w') = None /\ device_info (self w') = None)))
             w).
  unfold connect.
  destruct (PICOSDK_AVAILABLE sdk) eqn:Ha; cbn [negb].
  - repeat wp_step Ha;
      (split; [reflexivity|]; split; [reflexivity|]);
      first [ right; right; repeat split; reflexivity
            | left; split; [reflexivity|];
              eexists _, _, _; split; reflexivity ].
  - apply wp_ret. split; [reflexivity|]. split; [reflexivity|].
    right; left. destruct w. repeat split.
Qed.

Lemma wp_returns {A} (m : M A) (a : A) (P : world -> Prop) (w : world) :
  wp m (fun o w' => o = Return a /\ P w') w ->
  exists w', m w = (Return a, w') /\ P w'.
Proof.
  unfold wp. destruct (m w) as [o w']; simpl. intros [-> H].
  exists w'. split; [reflexivity | exact H].
Qed.

(** X3.  When the driver opens the unit (status 0) and the two
    identification strings decode, [connect] returns [True] after exactly
    three calls (open, variant, batch and serial) and stores the handle and
    the two strings.  The status codes of the two [ps5000aGetUnitInfo] calls
    play no part: they are stored and never checked. *)
Theorem connect_success_ignores_info_status
        (sdk : picosdk) (device_index : Z) (serial : option string) (w : world)
        (variant batch_serial : string) :
  let open := ps5000aOpenUnit (serial_bytes_of serial) PS5000A_DR_12BIT in
  let r := respond sdk (trace w) open in
  let q1 := ps5000aGetUnitInfo (Some (r_handle r)) 256 PICO_VARIANT_INFO in
  let r1 := respond sdk (trace w ++ [open]) q1 in
  let q2 := ps5000aGetUnitInfo (Some (r_handle r)) 256 PICO_BATCH_AND_SERIAL in
  let r2 := respond sdk ((trace w ++ [open]) ++ [q1]) q2 in
  PICOSDK_AVAILABLE sdk = true ->
  r_raises r = false -> r_status r = 0 ->
  r_raises r1 = false -> r_info r1 = Some variant ->
  r_raises r2 = false -> r_info r2 = Some batch_serial ->
  exists w',
    connect sdk device_index serial w = (Return true, w') /\
    chandle (self w') = Some (r_handle r) /\
    device_info (self w')
    = Some (connected_info (r_handle r) variant batch_serial) /\
    trace w' = ((trace w ++ [open]) ++ [q1]) ++ [q2] /\
    dict_get (status (self w')) "getUnitInfo" = Some (r_status r2).
Proof.
  intros open r q1 r1 q2 r2 Ha Hr Hst Hr1 Hi1 Hr2 Hi2.
  subst r2 q2 r1 q1 r open. unfold serial_bytes_of in *.
  apply wp_returns. unfold connect. rewrite Ha. cbn [negb].
  repeat wp_step Ha; cbn in *;
    repeat match goal with
           | H : _ = Raise _ |- _ =>
               rewrite ?Hi1, ?Hi2 in H; discriminate H
           | H : _ = Ok _ |- _ =>
               rewrite ?Hi1, ?Hi2 in H; injection H as <-
           end;
    try congruence.
  repeat split. apply dict_get_set_same.
Qed.

Lemma connect_success_ignores_info_status_witness :
  exists w',
    connect info_error_sdk 0 None init_world = (Return true, w') /\
    dict_get (status (self w')) "getUnitInfo" = Some 3.
Proof.
  destruct (connect_success_ignores_info_status
              info_error_sdk 0 None init_world "5444D" "5444D")
    as (w' & Hrun & _ & _ & _ & Hst); try reflexivity.
  exists w'. split; [exact Hrun | exact Hst].
Defined.

(** X4.  When the driver answers the open request with a status other
    than 0, 286 and 282, [connect] returns [False] after that single call:
    the open is not retried and nothing else is asked of the driver; the
    handle the driver wrote is dropped. *)
Theorem connect_open_rejected
        (sdk : picosdk) (device_index : Z) (serial : option string) (w : world) :
  let open := ps5000aOpenUnit (serial_bytes_of serial) PS5000A_DR_12BIT in
  let r := respond sdk (trace w) open in
  PICOSDK_AVAILABLE sdk = true ->
  r_raises r = false ->
  r_status r <> 0 -> r_status r <> 286 -> r_status r <> 282 ->
  exists w',
    connect sdk device_index serial w = (Return false, w') /\
    trace w' = trace w ++ [open] /\
    chandle (self w') = None /\
    device_info (self w') = None /\
    dict_get (status (self w')) "openunit" = Some (r_status r).
Proof.
  intros open r Ha Hr H0 H286 H282.
  subst r open. unfold serial_bytes_of in *.
  apply wp_returns. unfold connect. rewrite Ha. cbn [negb].
  repeat wp_step Ha; cbn in *; try congruence;
    try (apply orb_true_iff in Heqb; destruct Heqb as [E|E];
         apply Z.eqb_eq in E; congruence).
  repeat split. apply dict_get_set_same.
Qed.

Lemma connect_open_rejected_witness :
  exists w',
    connect (open_status_sdk 3 0) 0 None init_world = (Return false, w') /\
    trace w' = [ps5000aOpenUnit None PS5000A_DR_12BIT] /\
    chandle (self w') = None.
Proof.
  destruct (connect_open_rejected (open_status_sdk 3 0) 0 None init_world)
    as (w' & Hrun & Htrace & Hh & _); try reflexivity; try discriminate.
  exists w'. repeat split; assumption.
Defined.

(** X5.  When the driver answers the open request with status 286 or 282,
    the next call is [ps5000aChangePowerSource] with the handle the driver
    wrote and that same status code; if that request is refused (or raises),
    [connect] returns [False] after these two calls and keeps no handle. *)
Theorem connect_power_source_change
        (sdk : picosdk) (device_index : Z) (serial : option string) (w : world) :
  let open := ps5000aOpenUnit (serial_bytes_of serial) PS5000A_DR_12BIT in
  let r := respond sdk (trace w) open in
  let power := ps5000aChangePowerSource (Some (r_handle r)) (r_status r) in
  let rp := respond sdk (trace w ++ [open]) power in
  PICOSDK_AVAILABLE sdk = true ->
  r_raises r = false ->
  r_status r = 286 \/ r_status r = 282 ->
  exists rest,
    trace (snd (connect sdk device_index serial w))
    = trace w ++ open :: power :: rest /\
    (r_raises rp = true \/ r_status rp <> 0 ->
     rest = [] /\
     fst (connect sdk device_index serial w) = Return false /\
     chandle (self (snd (connect sdk device_index serial w))) = None).
Proof.
  intros open r power rp Ha Hr Hst.
  change (wp (connect sdk device_index serial)
             (fun o w' =>
                exists rest,
                  trace w' = trace w ++ open :: power :: rest /\
                  (r_raises rp = true \/ r_status rp <> 0 ->
                   rest = [] /\ o = Return false /\ chandle (self w') = None))
             w).
  subst rp power r open. unfold serial_bytes_of in *.
  unfold connect. rewrite Ha. cbn [negb].
  repeat wp_step Ha; cbn in *; try congruence;
    try (destruct Hst as [E|E]; rewrite E in *; congruence);
    try (apply orb_false_iff in Heqb; destruct Heqb as [E1 E2];
         apply Z.eqb_neq in E1, E2; destruct Hst; congruence);
    (eexists; split;
     [rewrite <- ?app_assoc; cbn; reflexivity
     | intros [E|E]; solve [congruence | repeat split]]).
Qed.

Lemma connect_power_source_change_witness :
  fst (connect (open_status_sdk 282 7) 0 None init_world) = Return false /\
  trace (snd (connect (open_status_sdk 282 7) 0 None init_world))
  = [ps5000aOpenUnit None PS5000A_DR_12BIT;
     ps5000aChangePowerSource (Some 16384) 282].
Proof.
  destruct (connect_power_source_change (open_status_sdk 282 7) 0 None init_world)
    as (rest & Htrace & Hfail);
    [reflexivity | reflexivity | right; reflexivity|].
  destruct Hfail as (Hrest & Hret & _); [right; discriminate|].
  subst rest. split; [exact Hret | exact Htrace].
Defined.

(* ------------------------------------------------------------------ *)
(** ** disconnect with a handle                                         *)
(* ------------------------------------------------------------------ *)

(** X6.  On a manager with a handle, [disconnect] calls [ps5000aStop] and
    then [ps5000aCloseUnit] on it.  When neither call raises it returns
    [True] and the manager is as [__init__] leaves it, whatever status codes
    the two calls returned.  When [ps5000aStop] raises, [ps5000aCloseUnit]
    is not called; when either raises, [disconnect] returns [False] and the
    manager keeps its handle and everything else. *)
Theorem disconnect_releases_handle (sdk : picosdk) (w : world) :
  let stop := ps5000aStop (chandle (self w)) in
  let close := ps5000aCloseUnit (chandle (self w)) in
  PICOSDK_AVAILABLE sdk = true ->
  chandle_truthy (self w) = true ->
  disconnect sdk w =
  if r_raises (respond sdk (trace w) stop) then
    (Return false, {| self := self w; trace := trace w ++ [stop] |})
  else if r_raises (respond sdk (trace w ++ [stop]) close) then
    (Return false, {| self := self w; trace := (trace w ++ [stop]) ++ [close] |})
  else
    (Return true, {| self := __init__; trace := (trace w ++ [stop]) ++ [close] |}).
Proof.
  intros stop close Ha Ht. subst stop close.
  unfold disconnect, try_except.
  unfold bind at 1. unfold get_self at 1. cbn iota. rewrite Ht.
  unfold bind at 1. unfold bind at 1.
  rewrite (foreign_run sdk _ w Ha).
  destruct (r_raises (respond sdk (trace w) _)); [reflexivity|].
  unfold bind at 1.
  rewrite (foreign_run sdk _ _ Ha). cbn [trace self].
  destruct (r_raises (respond sdk (trace w ++ _) _)); reflexivity.
Qed.

Lemma disconnect_releases_handle_witness :
  disconnect (open_status_sdk 0 5)
             (connected_world [("A"%string, channel_A_5V)])
  = (Return true,
     {| self := __init__;
        trace := [ps5000aStop (Some 16384); ps5000aCloseUnit (Some 16384)] |}).
Proof.
  apply (disconnect_releases_handle
           (open_status_sdk 0 5)
           (connected_world [("A"%string, channel_A_5V)]));
    reflexivity.
Defined.

(* ------------------------------------------------------------------ *)
(** ** configure_channel and set_trigger: accepted and refused          *)
(* ------------------------------------------------------------------ *)



(** X8.  An identifier outside the literal maps is refused before the
    driver is asked anything: on a connected session [configure_channel]
    with a channel other than "A", "B", "C", "D" and [set_trigger] with a
    source other than these and "External" return [False] and leave the
    manager and the call history as they were. *)
Theorem unknown_identifier_refused
        (sdk : picosdk) (w : world) :
  is_connected (self w) = true ->
  PICOSDK_AVAILABLE sdk = true ->
  (forall config,
      dict_mem channel_map (channel config) = false ->
      configure_channel sdk config w = (Return false, w)) /\
  (forall config,
      dict_mem source_map (source config) = false ->
      set_trigger sdk config w = (Return false, w)).
Proof.
  intros Hc Ha. split; intros config Hmem.
  - unfold configure_channel, try_except.
    unfold bind at 1. unfold get_self at 1. cbn iota. rewrite Hc. cbn [negb].
    rewrite (bind_Return _ _ _ _ _ (picosdk_name_run sdk w Ha)).
    rewrite Hmem. reflexivity.
  - unfold set_trigger, try_except.
    unfold bind at 1. unfold get_self at 1. cbn iota. rewrite Hc. cbn [negb].
    rewrite (bind_Return _ _ _ _ _ (picosdk_name_run sdk w Ha)).
    rewrite Hmem. reflexivity.
Qed.

Lemma unknown_identifier_refused_witness :
  configure_channel (accepting_sdk 2)
                    {| channel := "E"; enabled := true; coupling := DC;
                       voltage_range := 5.0; analog_offset := 0 |}
                    (connected_world [])
  = (Return false, connected_world []) /\
  set_trigger (accepting_sdk 2)
              {| source := "Ext"; threshold_mv := 0; direction := RISING;
                 auto_trigger_ms := 0 |}
              (connected_world [])
  = (Return false, connected_world []).
Proof.
  destruct (unknown_identifier_refused (accepting_sdk 2) (connected_world []))
    as [H1 H2]; try reflexivity.
  split; [apply H1 | apply H2]; reflexivity.
Defined.

(* ------------------------------------------------------------------ *)
(** ** capture_block: sample counts and result entries                  *)
(* ------------------------------------------------------------------ *)

Lemma setup_buffers_negative sdk h total_samples :
  total_samples < 0 ->
  forall items acc w,
    Exists (fun item => enabled (snd item) = true) items ->
    for_each items (buffer_body sdk h total_samples) acc w
    = (Raised ValueError, w).
Proof.
  intros Hneg. induction items as [|[ch_name ch_config] items IH];
    intros acc w Hex.
  - inversion Hex.
  - cbn [for_each]. unfold buffer_body at 1.
    destruct (enabled ch_config) eqn:Hen.
    + apply bind_Raised.
      replace (total_samples <? 0) with true by (symmetry; now apply Z.ltb_lt).
      reflexivity.
    + rewrite (bind_Return _ _ w w acc) by reflexivity.
      apply IH. inversion Hex as [? ? Hhd|? ? Htl]; subst; [|exact Htl].
      simpl in Hhd. congruence.
Qed.

(** X9.  On a connected session with at least one enabled channel,
    [capture_block] with a negative total of pre- and post-trigger samples
    returns [None] at the buffer allocation: the driver is asked nothing and
    the manager, [status] included, is as it was. *)
Theorem capture_block_negative_total
        (sdk : picosdk) (fuel : nat) (pre_trigger post_trigger : Z) (w : world) :
  is_connected (self w) = true ->
  pre_trigger + post_trigger < 0 ->
  Exists (fun item => enabled (snd item) = true) (channel_configs (self w)) ->
  capture_block sdk fuel pre_trigger post_trigger w = (Return None, w).
Proof.
  intros Hc Hneg Hex.
  unfold capture_block.
  unfold bind at 1. unfold get_self at 1. cbn iota. rewrite Hc. cbn [negb].
  cbv zeta.
  destruct (PICOSDK_AVAILABLE sdk) eqn:Ha.
  - erewrite try_except_Raised; [reflexivity|].
    rewrite (bind_Return _ _ _ _ _ (picosdk_name_run sdk w Ha)).
    apply bind_Raised. unfold setup_buffers, dict_items.
    now apply setup_buffers_negative.
  - erewrite try_except_Raised; [reflexivity|].
    apply bind_Raised. unfold picosdk_name. rewrite Ha. reflexivity.
Qed.

Lemma capture_block_negative_total_witness :
  capture_block (accepting_sdk 2) 100 (-5) 3
                (connected_world [("B"%string, channel_B_disabled);
                                  ("A"%string, channel_A_5V)])
  = (Return None,
     connected_world [("B"%string, channel_B_disabled);
                      ("A"%string, channel_A_5V)]).
Proof.
  apply (capture_block_negative_total (accepting_sdk 2) 100 (-5) 3).
  - reflexivity.
  - lia.
  - right. left. reflexivity.
Defined.

Lemma bind_Return_inv {A B} (m : M A) (k : A -> M B) (w w1 : world) (b : B) :
  bind m k w = (Return b, w1) ->
  exists a w', m w = (Return a, w') /\ k a w' = (Return b, w1).
Proof.
  unfold bind. destruct (m w) as [[a|e|] w']; try discriminate.
  intros H. now exists a, w'.
Qed.

Lemma lift_Return_inv {A} (r : pyresult A) (w w1 : world) (a : A) :
  lift r w = (Return a, w1) -> r = Ok a /\ w1 = w.
Proof.
  destruct r; simpl; unfold ret, raise; intros H; inversion H; now split.
Qed.

Lemma buffer_body_value sdk h total_samples item acc w b w1 :
  buffer_body sdk h total_samples item acc w = (Return b, w1) ->
  b = enabled_buffers [item] acc.
Proof.
  destruct item as [ch_name ch_config]. unfold buffer_body. simpl.
  destruct (enabled ch_config); [|intros H; now inversion H].
  intros H. cbv zeta in H.
  repeat (apply bind_Return_inv in H; destruct H as (? & ? & _ & H)).
  now inversion H.
Qed.

Lemma setup_buffers_value sdk h total_samples : forall items acc w b w1,
  for_each items (buffer_body sdk h total_samples) acc w = (Return b, w1) ->
  b = enabled_buffers items acc.
Proof.
  induction items as [|item items IH]; intros acc w b w1 H.
  - now inversion H.
  - cbn [for_each] in H. apply bind_Return_inv in H.
    destruct H as (b' & w' & Hbody & Hrest).
    apply buffer_body_value in Hbody. subst b'.
    apply IH in Hrest. exact Hrest.
Qed.

Lemma result_body_value sdk s total_samples t data name buffer acc w r w1 :
  result_body sdk s total_samples t data (name, buffer) acc w = (Return r, w1) ->
  exists cd, r = dict_set acc name cd /\ capture_entry total_samples t name cd.
Proof.
  unfold result_body. cbv zeta. intros H.
  repeat (apply bind_Return_inv in H; destruct H as (? & ? & _ & H)).
  inversion H. eexists. split; [reflexivity|]. repeat split.
Qed.

Lemma build_result_value sdk s total_samples t data :
  forall buffers acc w result w1,
    for_each buffers (result_body sdk s total_samples t data) acc w
    = (Return result, w1) ->
    (forall name, dict_mem result name = true <->
                  In name (map fst buffers) \/ dict_mem acc name = true) /\
    (forall name cd, dict_get result name = Some cd ->
                     capture_entry total_samples t name cd \/
                     dict_get acc name = Some cd).
Proof.
  induction buffers as [|[name buffer] buffers IH]; intros acc w result w1 H.
  - inversion H; subst. split.
    + intros n. split; [now right | intros [[]|E]; exact E].
    + intros n cd E. now right.
  - cbn [for_each] in H. apply bind_Return_inv in H.
    destruct H as (acc' & w' & Hbody & Hrest).
    apply result_body_value in Hbody. destruct Hbody as (cd0 & -> & Hentry).
    destruct (IH _ _ _ _ Hrest) as [Hmem Hget]. split.
    + intros n. rewrite Hmem, dict_mem_set. simpl.
      destruct (String.eqb_spec name n) as [->|Hne]; simpl.
      * split; intros _; [left; now left | now right].
      * split.
        -- intros [Hin|E]; [left; now right | now right].
        -- intros [[E|Hin]|E]; [contradiction | now left | now right].
    + intros n cd E. destruct (Hget n cd E) as [Hok|Hold]; [now left|].
      destruct (String.eqb_spec name n) as [->|Hne].
      * rewrite dict_get_set_same in Hold. injection Hold as <-. now left.
      * rewrite (dict_get_set_other _ _ _ _ Hne) in Hold. now right.
Qed.

Lemma enabled_buffers_mem_In items : forall acc name cfg,
  In (name, cfg) items -> enabled cfg = true ->
  dict_mem (enabled_buffers items acc) name = true.
Proof.
  induction items as [|[n c] items IH]; intros acc name cfg Hin Hen;
    simpl in *; [contradiction|].
  destruct Hin as [E|Hin].
  - injection E as -> ->. rewrite Hen.
    apply enabled_buffers_keeps. now rewrite dict_mem_set, String.eqb_refl.
  - eapply IH; eassumption.
Qed.

Lemma enabled_buffers_mem_inv items : forall acc name,
  dict_mem (enabled_buffers items acc) name = true ->
  dict_mem acc name = true \/
  exists cfg, In (name, cfg) items /\ enabled cfg = true.
Proof.
  induction items as [|[n c] items IH]; intros acc name H; simpl in *;
    [now left|].
  destruct (IH _ _ H) as [Hacc|(cfg & Hin & Hen)].
  - destruct (enabled c) eqn:Hc; [|now left].
    rewrite dict_mem_set in Hacc. apply orb_true_iff in Hacc.
    destruct Hacc as [E|E]; [|now left].
    apply String.eqb_eq in E. subst n.
    right. exists c. split; [now left | exact Hc].
  - right. exists cfg. split; [now right | exact Hen].
Qed.

Lemma try_except_Some_inv {A} (body : M (option A)) (w w' : world) (a : A) :
  try_except body (fun _ => ret None) w = (Return (Some a), w') ->
  body w = (Return (Some a), w').
Proof.
  unfold try_except. destruct (body w) as [[x|e|] w1]; try discriminate.
  exact (fun H => H).
Qed.

(** X10.  Whatever the driver does, a result that [capture_block] returns
    has an entry exactly for the channels with an enabled stored
    configuration, and every entry carries its own channel name, the sample
    count [pre_trigger + post_trigger] and one and the same time axis and
    sample interval. *)
Theorem capture_block_result_entries
        (sdk : picosdk) (fuel : nat) (pre_trigger post_trigger : Z)
        (w w' : world) (result : dict CaptureData) :
  capture_block sdk fuel pre_trigger post_trigger w
  = (Return (Some result), w') ->
  (forall name,
      dict_mem result name = true <->
      exists cfg, In (name, cfg) (channel_configs (self w)) /\
                  enabled cfg = true) /\
  exists t,
    forall name cd,
      dict_get result name = Some cd ->
      capture_entry (pre_trigger + post_trigger) t name cd.
Proof.
  unfold capture_block. intros H.
  apply bind_Return_inv in H. destruct H as (s & w0 & Hs & H).
  inversion Hs; subst s w0; clear Hs.
  destruct (negb (is_connected (self w))); [inversion H|].
  apply try_except_Some_inv in H. cbv zeta in H.
  apply bind_Return_inv in H. destruct H as (_ & w1 & _ & H).
  apply bind_Return_inv in H. destruct H as (buffers & w2 & Hbuf & H).
  apply setup_buffers_value in Hbuf. unfold dict_items in Hbuf.
  apply bind_Return_inv in H. destruct H as ([timebase t] & w3 & _ & H).
  do 8 (apply bind_Return_inv in H; destruct H as (? & ? & _ & H)).
  apply bind_Return_inv in H. destruct H as (res & w9 & Hres & H).
  inversion H; subst res; clear H.
  apply build_result_value in Hres. destruct Hres as [Hmem Hget].
  unfold dict_items in Hmem. split.
  - intros name. rewrite Hmem. subst buffers. split.
    + intros [Hin|E]; [|discriminate].
      apply In_fst_dict_mem, enabled_buffers_mem_inv in Hin.
      destruct Hin as [E|Hex]; [discriminate | exact Hex].
    + intros (cfg & Hin & Hen). left. apply dict_mem_In_fst.
      eapply enabled_buffers_mem_In; eassumption.
  - exists t. intros name cd E.
    destruct (Hget name cd E) as [Hok|Hold]; [exact Hok | discriminate].
Qed.

Lemma capture_block_result_entries_witness :
  exists w' result,
    capture_block slow_sdk 100 3 5
                  (connected_world [("A"%string, channel_A_5V);
                                    ("B"%string, channel_B_disabled)])
    = (Return (Some result), w') /\
    dict_mem result "A" = true /\ dict_mem result "B" = false.
Proof.
  set (run := capture_block slow_sdk 100 3 5
                (connected_world [("A"%string, channel_A_5V);
                                  ("B"%string, channel_B_disabled)])).
  assert (Hrun : exists w' result, run = (Return (Some result), w'))
    by (vm_compute; eexists _, _; reflexivity).
  destruct Hrun as (w' & result & Hrun).
  exists w', result. split; [exact Hrun|].
  destruct (capture_block_result_entries _ _ _ _ _ _ _ Hrun) as [Hmem _].
  split.
  - apply Hmem. exists channel_A_5V. split; [now left | reflexivity].
  - destruct (dict_mem result "B") eqn:E; [|reflexivity].
    apply Hmem in E. destruct E as (cfg & [E|[E|[]]] & Hen).
    + discriminate E.
    + injection E as <-. discriminate Hen.
Defined.
